(** * InsurancePro: the campaign send pipeline of [app.py]

    A shallow embedding of the subscriber registry, the e-mail template
    renderer, the mail transport and the campaign dispatcher of the Flask
    application, with the properties its specification states about them.

    Python strings are kept as their UTF-8 byte strings.  The two tables that
    matter are a list of subscriber rows (row order is what [.all()] and
    [.first()] return) and a finite map from primary key to campaign row.
    Everything outside the process (clock, mail relay, standard output, the
    e-mail validator, the signing primitive) is gathered in one interface,
    [Deployment], and handlers thread an explicit environment. *)

From Stdlib Require Import ZArith String Ascii List Bool Lia.
From stdpp Require Import base option list gmap strings pretty.

Open Scope string_scope.
Open Scope Z_scope.

(** ** Strings *)

Definition dq : string := String (ascii_of_nat 34) EmptyString.
Definition nl : string := String (ascii_of_nat 10) EmptyString.

(** The text of a triple-quoted literal, given line by line. *)
Fixpoint unlines (ls : list string) : string :=
  match ls with
  | [] => EmptyString
  | [l] => l
  | l :: rest => l +:+ nl +:+ unlines rest
  end.

Definition bytes (codes : list nat) : string :=
  string_of_list_ascii (map ascii_of_nat codes).

(** The characters [str.isspace] accepts, as UTF-8: U+0009..U+000D,
    U+001C..U+0020, U+0085, U+00A0, U+1680, U+2000..U+200A, U+2028, U+2029,
    U+202F, U+205F and U+3000. *)
Definition whitespace : list string :=
  map (fun c : nat => bytes [c]) [9; 10; 11; 12; 13; 28; 29; 30; 31; 32]%nat
  ++ [bytes [194; 133]; bytes [194; 160]; bytes [225; 154; 128]]%nat
  ++ map (fun c : nat => bytes [226; 128; c]%nat)
       [128; 129; 130; 131; 132; 133; 134; 135; 136; 137; 138; 168; 169; 175]%nat
  ++ [bytes [226; 129; 159]; bytes [227; 128; 128]]%nat.

Fixpoint drop_prefix (p s : string) : option string :=
  match p, s with
  | EmptyString, _ => Some s
  | String a p', String b s' => if Ascii.eqb a b then drop_prefix p' s' else None
  | String _ _, EmptyString => None
  end.

Fixpoint drop_any (ps : list string) (s : string) : option string :=
  match ps with
  | [] => None
  | p :: ps' =>
      match drop_prefix p s with
      | Some r => Some r
      | None => drop_any ps' s
      end
  end.

Fixpoint lstrip_with (ps : list string) (fuel : nat) (s : string) : string :=
  match fuel with
  | O => s
  | S fuel' =>
      match drop_any ps s with
      | Some r => lstrip_with ps fuel' r
      | None => s
      end
  end.

Definition lstrip (s : string) : string :=
  lstrip_with whitespace (String.length s) s.

Definition rstrip (s : string) : string :=
  let r := String.rev s in
  String.rev (lstrip_with (map String.rev whitespace) (String.length r) r).

(** [str.strip()] *)
Definition strip (s : string) : string := rstrip (lstrip s).

(** Truth value of a Python [str]. *)
Definition truthy (s : string) : bool :=
  match s with EmptyString => false | _ => true end.

(** [x or y] on an optional string: [None] and the empty string are falsy. *)
Definition or_else (x y : option string) : option string :=
  match x with
  | Some s => if truthy s then x else y
  | None => y
  end.

(** [all([...])] over strings. *)
Definition py_all (xs : list string) : bool := forallb truthy xs.

(** [t] occurs in [s] as a contiguous piece. *)
Definition occurs_in (t s : string) : Prop :=
  exists before after, s = before +:+ t +:+ after.

(** ** Data model *)

Module Subscriber.
Record t := mk {
  id : Z;
  email : string;
  name : option string;
  phone : option string;
  insurance_type : option string;
  status : option string;
  subscribed_at : option Z;
  last_campaign_sent : option Z
}.

Definition with_status (v : option string) (s : t) : t :=
  mk (id s) (email s) (name s) (phone s) (insurance_type s) v
     (subscribed_at s) (last_campaign_sent s).

Definition with_name (v : option string) (s : t) : t :=
  mk (id s) (email s) v (phone s) (insurance_type s) (status s)
     (subscribed_at s) (last_campaign_sent s).

Definition with_last_campaign_sent (v : option Z) (s : t) : t :=
  mk (id s) (email s) (name s) (phone s) (insurance_type s) (status s)
     (subscribed_at s) v.
End Subscriber.

(** A campaign row; its primary key is the key it is filed under. *)
Module Campaign.
Record t := mk {
  name : string;
  subject : string;
  content : string;
  template_type : option string;
  status : option string;
  target_segment : option string;
  created_at : option Z;
  sent_at : option Z;
  total_recipients : option Z;
  sent_count : option Z;
  failed_count : option Z;
  opened_count : option Z
}.

Definition with_status (v : option string) (c : t) : t :=
  mk (name c) (subject c) (content c) (template_type c) v
     (target_segment c) (created_at c) (sent_at c) (total_recipients c)
     (sent_count c) (failed_count c) (opened_count c).

Definition with_total_recipients (v : option Z) (c : t) : t :=
  mk (name c) (subject c) (content c) (template_type c) (status c)
     (target_segment c) (created_at c) (sent_at c) v
     (sent_count c) (failed_count c) (opened_count c).

Definition with_sent_at (v : option Z) (c : t) : t :=
  mk (name c) (subject c) (content c) (template_type c) (status c)
     (target_segment c) (created_at c) v (total_recipients c)
     (sent_count c) (failed_count c) (opened_count c).

Definition with_sent_count (v : option Z) (c : t) : t :=
  mk (name c) (subject c) (content c) (template_type c) (status c)
     (target_segment c) (created_at c) (sent_at c) (total_recipients c)
     v (failed_count c) (opened_count c).

Definition with_failed_count (v : option Z) (c : t) : t :=
  mk (name c) (subject c) (content c) (template_type c) (status c)
     (target_segment c) (created_at c) (sent_at c) (total_recipients c)
     (sent_count c) v (opened_count c).
End Campaign.

(** The two tables of [insurance.db] the pipeline reads and writes. *)
Record DB := mkDB {
  subscribers : list Subscriber.t;
  campaigns : gmap Z Campaign.t
}.

(** ** Process configuration (module-level constants of [app.py]) *)

Record Config := mkConfig {
  SECRET_KEY : string;
  SMTP_SERVER : string;
  SMTP_PORT : Z;
  SMTP_USERNAME : string;
  SMTP_PASSWORD : string;
  FROM_EMAIL : string
}.

(** ** The world outside the process *)

Record Message := mkMessage {
  msg_subject : string;
  msg_from : string;
  msg_to : string;
  msg_parts : list (string * string)   (* (MIME subtype, payload), in order *)
}.

Inductive SmtpCmd :=
| SmtpConnect (host : string) (port : Z)
| SmtpStartTls
| SmtpLogin (user password : string)
| SmtpSendMessage (m : Message)
| SmtpQuit.

Inductive Event :=
| Printed (line : string)
| Smtp (c : SmtpCmd).

(** An unsubscribe token before it is written out as a URL-safe string. *)
Record Token := mkToken {
  tok_email : string;
  tok_issued_at : Z;
  tok_signature : string
}.

(** What the handlers need from their surroundings: a clock in seconds, the
    relay's reaction to each SMTP command ([Some e]: the call raises [e]),
    [email_validator]'s verdict (it may consult DNS, hence the world), and
    the pieces of [itsdangerous]: the keyed signature and the string form of
    a token. *)
Class Deployment := {
  World : Type;
  clock : World -> Z;
  smtp_reply : World -> SmtpCmd -> World * option string;
  validate_email : World -> string -> bool;
  mac : string -> string -> string * Z -> string;
  wire : Token -> string;
  unwire : string -> option Token;
  config : Config
}.

Record Env `{Deployment} := mkEnv {
  world : World;
  trace : list Event
}.
Arguments mkEnv {_} _ _.

(** ** A state and exception monad over the environment *)

Inductive Res (A : Type) :=
| Ok (a : A)
| Raise (e : string).
Arguments Ok {A} a.
Arguments Raise {A} e.

Definition IO `{Deployment} (A : Type) : Type := Env -> Env * Res A.

Section Monad.
Context `{Deployment}.

Definition ret {A} (a : A) : IO A := fun env => (env, Ok a).

Definition raise {A} (e : string) : IO A := fun env => (env, Raise e).

Definition bind {A B} (m : IO A) (k : A -> IO B) : IO B := fun env =>
  match m env with
  | (env1, Ok a) => k a env1
  | (env1, Raise e) => (env1, Raise e)
  end.

(** [try: m  except Exception as e: h e] *)
Definition try_except {A} (m : IO A) (h : string -> IO A) : IO A := fun env =>
  match m env with
  | (env1, Ok a) => (env1, Ok a)
  | (env1, Raise e) => h e env1
  end.

(** Run [cleanup] after [m] whatever [m] did; an exception of [cleanup]
    replaces the outcome of [m]. *)
Definition finally {A} (m : IO A) (cleanup : IO unit) : IO A := fun env =>
  match m env with
  | (env1, r) =>
      match cleanup env1 with
      | (env2, Ok _) => (env2, r)
      | (env2, Raise e) => (env2, Raise e)
      end
  end.

Definition emit (ev : Event) : IO unit := fun env =>
  (mkEnv (world env) (trace env ++ [ev]), Ok tt).

Definition print (line : string) : IO unit := emit (Printed line).

(** [datetime.utcnow()], [time.time()] *)
Definition utcnow : IO Z := fun env => (env, Ok (clock (world env))).

(** One SMTP exchange: logged, then answered by the relay. *)
Definition smtp (c : SmtpCmd) : IO unit := fun env =>
  match smtp_reply (world env) c with
  | (w, None) => (mkEnv w (trace env ++ [Smtp c]), Ok tt)
  | (w, Some e) => (mkEnv w (trace env ++ [Smtp c]), Raise e)
  end.
End Monad.

Notation "x <- m ;; k" := (bind m (fun x => k))
  (at level 100, m at next level, right associativity, only parsing).
Notation "m ;;; k" := (bind m (fun _ => k))
  (at level 100, right associativity, only parsing).

(** ** Email Template Renderer: [get_email_template]

    Each template is the text of its f-string, cut at the two
    interpolations [{content}] and [{unsubscribe_link}]. *)

Definition default_head : string :=
  unlines [
    EmptyString;
    "        <!DOCTYPE html>";
    "        <html>";
    "        <head>";
    "            <meta charset=" +:+ dq +:+ "UTF-8" +:+ dq +:+ ">";
    "            <meta name=" +:+ dq +:+ "viewport" +:+ dq +:+ " content=" +:+ dq +:+ "width=device-width, initial-scale=1.0" +:+ dq +:+ ">";
    "            <style>";
    "                body { font-family: 'Segoe UI', Tahoma, Geneva, Verdana, sans-serif; margin: 0; padding: 0; background-color: #f4f4f4; }";
    "                .container { max-width: 600px; margin: 0 auto; background-color: #ffffff; }";
    "                .header { background: linear-gradient(135deg, #1e3c72 0%, #2a5298 100%); padding: 30px; text-align: center; }";
    "                .header h1 { color: #ffffff; margin: 0; font-size: 24px; }";
    "                .content { padding: 30px; line-height: 1.6; color: #333333; }";
    "                .footer { background-color: #f8f9fa; padding: 20px; text-align: center; font-size: 12px; color: #666666; }";
    "                .footer a { color: #2a5298; }";
    "                .button { display: inline-block; padding: 12px 24px; background: linear-gradient(135deg, #1e3c72 0%, #2a5298 100%); color: #ffffff; text-decoration: none; border-radius: 5px; margin: 10px 0; }";
    "            </style>";
    "        </head>";
    "        <body>";
    "            <div class=" +:+ dq +:+ "container" +:+ dq +:+ ">";
    "                <div class=" +:+ dq +:+ "header" +:+ dq +:+ ">";
    "                    <h1>InsurancePro</h1>";
    "                </div>";
    "                <div class=" +:+ dq +:+ "content" +:+ dq +:+ ">";
    "                    "
  ].

Definition default_mid : string :=
  unlines [
    EmptyString;
    "                </div>";
    "                <div class=" +:+ dq +:+ "footer" +:+ dq +:+ ">";
    "                    <p>Â© 2026 InsurancePro. All rights reserved.</p>";
    "                    <p>If you no longer wish to receive emails, <a href=" +:+ dq
  ].

Definition default_tail : string :=
  unlines [
    dq +:+ ">unsubscribe here</a>.</p>";
    "                </div>";
    "            </div>";
    "        </body>";
    "        </html>";
    "        "
  ].

Definition promotional_head : string :=
  unlines [
    EmptyString;
    "        <!DOCTYPE html>";
    "        <html>";
    "        <head>";
    "            <meta charset=" +:+ dq +:+ "UTF-8" +:+ dq +:+ ">";
    "            <meta name=" +:+ dq +:+ "viewport" +:+ dq +:+ " content=" +:+ dq +:+ "width=device-width, initial-scale=1.0" +:+ dq +:+ ">";
    "            <style>";
    "                body { font-family: 'Arial', sans-serif; margin: 0; padding: 0; background-color: #f4f4f4; }";
    "                .container { max-width: 600px; margin: 0 auto; background-color: #ffffff; border-radius: 10px; overflow: hidden; box-shadow: 0 4px 6px rgba(0,0,0,0.1); }";
    "                .header { background: linear-gradient(135deg, #ff6b6b 0%, #ee5a24 100%); padding: 40px; text-align: center; }";
    "                .header h1 { color: #ffffff; margin: 0; font-size: 28px; }";
    "                .content { padding: 40px; line-height: 1.8; color: #333333; }";
    "                .highlight { background-color: #fff3cd; padding: 15px; border-left: 4px solid #ffc107; margin: 20px 0; }";
    "                .footer { background-color: #343a40; padding: 20px; text-align: center; font-size: 12px; color: #ffffff; }";
    "                .footer a { color: #ffc107; }";
    "                .cta-button { display: inline-block; padding: 15px 30px; background: linear-gradient(135deg, #ff6b6b 0%, #ee5a24 100%); color: #ffffff; text-decoration: none; border-radius: 25px; font-weight: bold; margin: 15px 0; }";
    "            </style>";
    "        </head>";
    "        <body>";
    "            <div class=" +:+ dq +:+ "container" +:+ dq +:+ ">";
    "                <div class=" +:+ dq +:+ "header" +:+ dq +:+ ">";
    "                    <h1>ðŸŽ‰ Special Offer!</h1>";
    "                </div>";
    "                <div class=" +:+ dq +:+ "content" +:+ dq +:+ ">";
    "                    "
  ].

Definition promotional_mid : string :=
  unlines [
    EmptyString;
    "                </div>";
    "                <div class=" +:+ dq +:+ "footer" +:+ dq +:+ ">";
    "                    <p>Â© 2026 InsurancePro. All rights reserved.</p>";
    "                    <p><a href=" +:+ dq
  ].

Definition promotional_tail : string :=
  unlines [
    dq +:+ ">Unsubscribe</a> from promotional emails</p>";
    "                </div>";
    "            </div>";
    "        </body>";
    "        </html>";
    "        "
  ].

Definition newsletter_head : string :=
  unlines [
    EmptyString;
    "        <!DOCTYPE html>";
    "        <html>";
    "        <head>";
    "            <meta charset=" +:+ dq +:+ "UTF-8" +:+ dq +:+ ">";
    "            <meta name=" +:+ dq +:+ "viewport" +:+ dq +:+ " content=" +:+ dq +:+ "width=device-width, initial-scale=1.0" +:+ dq +:+ ">";
    "            <style>";
    "                body { font-family: 'Georgia', serif; margin: 0; padding: 0; background-color: #f9f9f9; }";
    "                .container { max-width: 600px; margin: 0 auto; background-color: #ffffff; }";
    "                .header { background-color: #2c3e50; padding: 25px; text-align: center; }";
    "                .header h1 { color: #ecf0f1; margin: 0; font-size: 26px; font-weight: normal; }";
    "                .content { padding: 35px; line-height: 1.7; color: #2c3e50; }";
    "                .article { margin-bottom: 25px; padding-bottom: 25px; border-bottom: 1px solid #ecf0f1; }";
    "                .article:last-child { border-bottom: none; }";
    "                .footer { background-color: #ecf0f1; padding: 20px; text-align: center; font-size: 11px; color: #7f8c8d; }";
    "                .footer a { color: #2c3e50; }";
    "            </style>";
    "        </head>";
    "        <body>";
    "            <div class=" +:+ dq +:+ "container" +:+ dq +:+ ">";
    "                <div class=" +:+ dq +:+ "header" +:+ dq +:+ ">";
    "                    <h1>InsurancePro Newsletter</h1>";
    "                </div>";
    "                <div class=" +:+ dq +:+ "content" +:+ dq +:+ ">";
    "                    "
  ].

Definition newsletter_mid : string :=
  unlines [
    EmptyString;
    "                </div>";
    "                <div class=" +:+ dq +:+ "footer" +:+ dq +:+ ">";
    "                    <p>Â© 2026 InsurancePro. Stay informed, stay protected.</p>";
    "                    <p><a href=" +:+ dq
  ].

Definition newsletter_tail : string :=
  unlines [
    dq +:+ ">Manage subscription preferences</a></p>";
    "                </div>";
    "            </div>";
    "        </body>";
    "        </html>";
    "        "
  ].

Definition unsubscribe_link_of (unsubscribe_token : string) : string :=
  "http://localhost:5000/unsubscribe/" +:+ unsubscribe_token.

(** The dictionary literal, its three entries entered in the order written. *)
Definition templates (content unsubscribe_link : string) : gmap string string :=
  <["newsletter" :=
      newsletter_head +:+ content +:+ newsletter_mid +:+ unsubscribe_link
        +:+ newsletter_tail]>
  (<["promotional" :=
       promotional_head +:+ content +:+ promotional_mid +:+ unsubscribe_link
         +:+ promotional_tail]>
  (<["default" :=
       default_head +:+ content +:+ default_mid +:+ unsubscribe_link
         +:+ default_tail]> ∅)).

(** [templates.get(template_type, templates['default'])]; the key of a
    campaign row may be NULL, which no template is filed under. *)
Definition get_email_template (template_type : option string)
    (content unsubscribe_token : string) : string :=
  let unsubscribe_link := unsubscribe_link_of unsubscribe_token in
  let ts := templates content unsubscribe_link in
  default (ts !!! "default") (template_type ≫= (ts !!.)).

(** ** Token Codec *)

Inductive TokenError := InvalidToken | ExpiredToken.

Section TokenCodec.
Context `{Deployment}.

(** Modelled from the spec: the token codec is the [itsdangerous] package,
    whose code is not part of the repository.  [issue] serializes the
    e-mail, the purpose tag and the issue time and signs them with the
    process-wide secret key; the signature scheme is deterministic. *)
Definition issue (salt : string) (now : Z) (email : string) : Token :=
  mkToken email now (mac (SECRET_KEY config) salt (email, now)).

(** Modelled from the spec: [verify] checks the signature and that the
    time elapsed since issuance is at most [max_age] seconds; it fails with
    [InvalidToken] on a bad signature and with [ExpiredToken] on an
    exceeded age. *)
Definition verify (salt : string) (max_age now : Z) (t : Token) : TokenError + string :=
  if negb (String.eqb (tok_signature t)
             (mac (SECRET_KEY config) salt (tok_email t, tok_issued_at t)))
  then inl InvalidToken
  else if max_age <? now - tok_issued_at t then inl ExpiredToken
  else inr (tok_email t).

(** Modelled from the spec: [serializer.dumps(obj, salt=...)] issues a token
    at the current time and returns its string form. *)
Definition serializer_dumps (obj salt : string) : IO string :=
  now <- utcnow ;; ret (wire (issue salt now obj)).

(** Modelled from the spec: [serializer.loads(token, salt=..., max_age=...)]
    verifies at the current time and raises on either failure; a string that
    is no token at all is reported like a bad signature. *)
Definition serializer_loads (token salt : string) (max_age : Z) : IO string :=
  now <- utcnow ;;
  match unwire token with
  | None => raise "BadSignature"
  | Some t =>
      match verify salt max_age now t with
      | inl InvalidToken => raise "BadSignature"
      | inl ExpiredToken => raise "SignatureExpired"
      | inr email => ret email
      end
  end.
End TokenCodec.

(** One year, the [max_age] the unsubscribe route passes. *)
Definition UNSUBSCRIBE_MAX_AGE : Z := 31536000.

(** ** Mail Transport: [send_email] *)

Section MailTransport.
Context `{Deployment}.

(** [with smtplib.SMTP(host, port) as server: body]: the constructor
    connects; once it has, leaving the block sends QUIT whether or not the
    body raised. *)
Definition with_smtp {A} (host : string) (port : Z) (body : IO A) : IO A :=
  smtp (SmtpConnect host port) ;;;
  finally body (smtp SmtpQuit).

Definition send_email (to_email subject html_content : string)
    (text_content : option string) : IO bool :=
  if negb (py_all [SMTP_USERNAME config; SMTP_PASSWORD config]) then
    print "SMTP credentials not configured" ;;;
    ret false
  else
    try_except
      (let parts :=
         (match text_content with
          | Some text => if truthy text then [("plain", text)] else []
          | None => []
          end ++ [("html", html_content)])%list in
       let msg := mkMessage subject (FROM_EMAIL config) to_email parts in
       with_smtp (SMTP_SERVER config) (SMTP_PORT config)
         (smtp SmtpStartTls ;;;
          smtp (SmtpLogin (SMTP_USERNAME config) (SMTP_PASSWORD config)) ;;;
          smtp (SmtpSendMessage msg)) ;;;
       ret true)
      (fun e =>
         print ("Error sending email: " +:+ e) ;;;
         ret false).
End MailTransport.

(** ** Requests and responses *)

Record SubscribeRequest := mkSubscribeRequest {
  form : gmap string string;
  x_requested_with : option string;
  referrer : option string
}.

Inductive Response :=
| Jsonify (success : bool) (message : string) (counts : option (Z * Z))
| FlashRedirect (message category location : string)
| Abort404.

Definition url_index : string := "/".
Definition url_admin_campaigns : string := "/admin/campaigns".

(** ** Subscriber Registry *)

(** [Subscriber.query.filter_by(email=email).first()] *)
Definition filter_by_email (email : string) (db : DB) : option Subscriber.t :=
  List.find (fun s => String.eqb (Subscriber.email s) email) (subscribers db).

(** Flushing a modified row: [UPDATE subscriber SET ... WHERE id = ?]. *)
Definition update_subscriber (s : Subscriber.t) (db : DB) : DB :=
  mkDB (map (fun r => if Subscriber.id r =? Subscriber.id s then s else r)
          (subscribers db))
       (campaigns db).

(** The key an INTEGER PRIMARY KEY column gives a new row. *)
Definition next_id (rows : list Subscriber.t) : Z :=
  1 + fold_right Z.max 0 (map Subscriber.id rows).

Definition add_subscriber (s : Subscriber.t) (db : DB) : DB :=
  mkDB (subscribers db ++ [s]) (campaigns db).

Section Registry.
Context `{Deployment}.

Definition validate_email_address (email : string) : IO bool :=
  fun env => (env, Ok (validate_email (world env) email)).

(** The two shapes of an answer of [/subscribe]: JSON for an XMLHttpRequest,
    else a flashed message and a redirect back. *)
Definition answer (req : SubscribeRequest) (success : bool)
    (message category : string) : Response :=
  if bool_decide (x_requested_with req = Some "XMLHttpRequest") then
    Jsonify success message None
  else
    FlashRedirect message category
      (default url_index (or_else (referrer req) None)).

Definition subscribe (req : SubscribeRequest) (db : DB) : IO (DB * Response) :=
  let email := strip (default EmptyString (form req !! "email")) in
  let name := strip (default EmptyString (form req !! "name")) in
  let insurance_type := strip (default EmptyString (form req !! "insurance_type")) in
  valid <- (if truthy email then validate_email_address email else ret false) ;;
  if negb valid then
    ret (db, answer req false "Please provide a valid email address." "error")
  else
    match filter_by_email email db with
    | Some existing =>
        if bool_decide (Subscriber.status existing = Some "unsubscribed") then
          let existing1 := Subscriber.with_status (Some "active") existing in
          let existing2 :=
            Subscriber.with_name
              (if truthy name then Some name else Subscriber.name existing1)
              existing1 in
          ret (update_subscriber existing2 db,
               answer req true
                 "Welcome back! Your subscription has been reactivated."
                 "success")
        else
          ret (db, answer req false "You are already subscribed!" "info")
    | None =>
        now <- utcnow ;;
        let subscriber :=
          Subscriber.mk (next_id (subscribers db)) email (Some name) None
            (Some insurance_type) (Some "active") (Some now) None in
        ret (add_subscriber subscriber db,
             answer req true
               "Thank you for subscribing! You will receive our latest updates."
               "success")
    end.

Definition unsubscribe (token : string) (db : DB) : IO (DB * Response) :=
  try_except
    (email <- serializer_loads token "unsubscribe" UNSUBSCRIBE_MAX_AGE ;;
     match filter_by_email email db with
     | Some subscriber =>
         ret (update_subscriber
                (Subscriber.with_status (Some "unsubscribed") subscriber) db,
              FlashRedirect "You have been successfully unsubscribed."
                "success" url_index)
     | None =>
         ret (db, FlashRedirect "Subscriber not found." "error" url_index)
     end)
    (fun _ =>
       ret (db, FlashRedirect "Invalid or expired unsubscribe link." "error"
                  url_index)).
End Registry.

(** Letter case, folded for the ASCII letters. *)
Definition lower_ascii (a : ascii) : ascii :=
  let n := nat_of_ascii a in
  if (65 <=? n)%nat && (n <=? 90)%nat then ascii_of_nat (n + 32) else a.

Fixpoint lower (s : string) : string :=
  match s with
  | EmptyString => EmptyString
  | String a rest => String (lower_ascii a) (lower rest)
  end.

(** No two rows of the subscriber table carry the same e-mail once [norm]
    is applied to it. *)
Definition unique_up_to (norm : string -> string) (db : DB) : Prop :=
  forall (i j : nat) (r1 r2 : Subscriber.t),
    subscribers db !! i = Some r1 ->
    subscribers db !! j = Some r2 ->
    norm (Subscriber.email r1) = norm (Subscriber.email r2) ->
    i = j.

(** Primary keys are unique: what the table's PRIMARY KEY constraint says. *)
Definition unique_ids (db : DB) : Prop :=
  NoDup (map Subscriber.id (subscribers db)).

(** Key and e-mail of every row, in row order. *)
Definition registry_keys (db : DB) : list (Z * string) :=
  map (fun r => (Subscriber.id r, Subscriber.email r)) (subscribers db).

(** ** Campaign Dispatcher *)

(** The loop variables of [send_campaign], with the session's pending rows. *)
Record Tally := mkTally {
  tally_db : DB;
  sent_count : Z;
  failed_count : Z
}.

(** Target subscribers of a campaign. *)
Definition resolve_recipients (campaign : Campaign.t) (db : DB) : list Subscriber.t :=
  if bool_decide (Campaign.target_segment campaign = Some "active") then
    filter (fun s => Subscriber.status s = Some "active") (subscribers db)
  else
    filter (fun s => Subscriber.status s ∈ [Some "active"; Some EmptyString])
      (subscribers db).

(** Flushing a modified campaign: [UPDATE campaign SET ... WHERE id = ?]. *)
Definition save_campaign (campaign_id : Z) (c : Campaign.t) (db : DB) : DB :=
  mkDB (subscribers db) (<[campaign_id := c]> (campaigns db)).

(** The three collaborators of the loop body.  The handler of the
    application, [send_campaign] below, plugs in the token codec, the
    renderer and the mail transport. *)
Class Collaborators `{Deployment} := {
  dumps : string -> string -> IO string;
  render : option string -> string -> string -> IO string;
  deliver : string -> string -> string -> option string -> IO bool
}.

Section Dispatcher.
Context `{Collaborators}.

(** What the [try] block computes for one subscriber before the counters
    move: the verdict of the transport, unless something raised. *)
Definition attempt (campaign : Campaign.t) (subscriber : Subscriber.t) : IO bool :=
  token <- dumps (Subscriber.email subscriber) "unsubscribe" ;;
  html_content <- render (Campaign.template_type campaign)
                    (Campaign.content campaign) token ;;
  deliver (Subscriber.email subscriber) (Campaign.subject campaign)
    html_content None.

(** One iteration of [for subscriber in subscribers]. *)
Definition send_one (campaign : Campaign.t) (subscriber : Subscriber.t)
    (t : Tally) : IO Tally :=
  try_except
    (delivered <- attempt campaign subscriber ;;
     if delivered : bool then
       now <- utcnow ;;
       ret (mkTally
              (update_subscriber
                 (Subscriber.with_last_campaign_sent (Some now) subscriber)
                 (tally_db t))
              (sent_count t + 1) (failed_count t))
     else
       ret (mkTally (tally_db t) (sent_count t) (failed_count t + 1)))
    (fun e =>
       print ("Error sending to " +:+ Subscriber.email subscriber +:+ ": " +:+ e) ;;;
       ret (mkTally (tally_db t) (sent_count t) (failed_count t + 1))).

Fixpoint send_all (campaign : Campaign.t) (subs : list Subscriber.t)
    (t : Tally) : IO Tally :=
  match subs with
  | [] => ret t
  | subscriber :: rest =>
      t1 <- send_one campaign subscriber t ;;
      send_all campaign rest t1
  end.

Definition send_campaign_with (campaign_id : Z) (db : DB) : IO (DB * Response) :=
  match campaigns db !! campaign_id with
  | None => ret (db, Abort404)
  | Some campaign =>
      if bool_decide (Campaign.status campaign = Some "sent") then
        ret (db, Jsonify false "Campaign has already been sent." None)
      else
        let subs := resolve_recipients campaign db in
        match subs with
        | [] => ret (db, Jsonify false "No subscribers found for this campaign." None)
        | _ :: _ =>
            let campaign1 :=
              Campaign.with_total_recipients (Some (Z.of_nat (length subs)))
                (Campaign.with_status (Some "sending") campaign) in
            let db1 := save_campaign campaign_id campaign1 db in
            t <- send_all campaign1 subs (mkTally db1 0 0) ;;
            now <- utcnow ;;
            let campaign2 :=
              Campaign.with_failed_count (Some (failed_count t))
                (Campaign.with_sent_count (Some (sent_count t))
                   (Campaign.with_sent_at (Some now)
                      (Campaign.with_status (Some "sent") campaign1))) in
            ret (save_campaign campaign_id campaign2 (tally_db t),
                 Jsonify true
                   ("Campaign sent! " +:+ pretty (sent_count t) +:+ " successful, "
                      +:+ pretty (failed_count t) +:+ " failed.")
                   (Some (sent_count t, failed_count t)))
        end
  end.

(** What one iteration leaves behind for the next one, and its verdict:
    [true] where the message went out, [false] where the transport refused
    it or the [try] block raised. *)
Definition iteration (campaign : Campaign.t) (subscriber : Subscriber.t)
    (env : Env) : Env * bool :=
  match attempt campaign subscriber env with
  | (env1, Ok delivered) => (env1, delivered)
  | (env1, Raise e) =>
      ((print ("Error sending to " +:+ Subscriber.email subscriber +:+ ": " +:+ e)
          env1).1, false)
  end.

(** The verdicts of a whole batch, recipient by recipient. *)
Fixpoint verdicts (campaign : Campaign.t) (subs : list Subscriber.t)
    (env : Env) : list bool :=
  match subs with
  | [] => []
  | subscriber :: rest =>
      let '(env1, delivered) := iteration campaign subscriber env in
      delivered :: verdicts campaign rest env1
  end.
End Dispatcher.

(** How many deliveries of a batch failed. *)
Definition failures (vs : list bool) : Z :=
  Z.of_nat (length (filter (fun delivered => delivered = false) vs)).

(** The campaign filed under [campaign_id] is marked as sent. *)
Definition is_sent (campaign_id : Z) (db : DB) : Prop :=
  exists campaign,
    campaigns db !! campaign_id = Some campaign
    /\ Campaign.status campaign = Some "sent".

Section Routes.
Context `{Deployment}.

(** What [send_campaign] calls in its loop body. *)
Definition application : Collaborators :=
  {| dumps := serializer_dumps;
     render := fun template_type content token =>
                 ret (get_email_template template_type content token);
     deliver := send_email |}.

Definition send_campaign : Z -> DB -> IO (DB * Response) :=
  @send_campaign_with _ application.

Definition delete_campaign (campaign_id : Z) (db : DB) : IO (DB * Response) :=
  match campaigns db !! campaign_id with
  | None => ret (db, Abort404)
  | Some campaign =>
      if bool_decide (Campaign.status campaign = Some "sent") then
        ret (db, FlashRedirect "Cannot delete sent campaigns." "error"
                   url_admin_campaigns)
      else
        ret (mkDB (subscribers db) (delete campaign_id (campaigns db)),
             FlashRedirect "Campaign deleted successfully." "success"
               url_admin_campaigns)
  end.

(** A request to one of the four routes that touch the two tables, with the
    environment it arrives in. *)
Inductive Op :=
| OpSubscribe (req : SubscribeRequest)
| OpUnsubscribe (token : string)
| OpSendCampaign (campaign_id : Z)
| OpDeleteCampaign (campaign_id : Z).

Definition handle (op : Op) (db : DB) : IO (DB * Response) :=
  match op with
  | OpSubscribe req => subscribe req db
  | OpUnsubscribe token => unsubscribe token db
  | OpSendCampaign campaign_id => send_campaign campaign_id db
  | OpDeleteCampaign campaign_id => delete_campaign campaign_id db
  end.

(** The table state a request leaves; a handler that raised has committed
    nothing. *)
Definition db_after (op : Op) (env : Env) (db : DB) : DB :=
  match handle op db env with
  | (_, Ok (db', _)) => db'
  | (_, Raise _) => db
  end.

Fixpoint run (ops : list (Op * Env)) (db : DB) : DB :=
  match ops with
  | [] => db
  | (op, env) :: rest => run rest (db_after op env db)
  end.
End Routes.

(** ** The rest of the application: public count, campaign creation and
    preview, the admin session, the default admin *)

(** [subscribers_count]: the figure [/api/subscribers/count] serves. *)
Definition subscribers_count (db : DB) : Z :=
  Z.of_nat (length (filter (fun s => Subscriber.status s = Some "active")
                      (subscribers db))).

(** What a route hands back when it is not one of the plain [Response]s: a
    rendered page with the messages flashed for it, a bare redirect, or a
    document. *)
Inductive View :=
| Respond (r : Response)
| RenderTemplate (template : string) (flashed : list (string * string))
| Redirect (location : string)
| Html (body : string).

Definition url_admin_login : string := "/admin/login".
Definition url_admin_dashboard : string := "/admin/dashboard".

(** A submitted [CampaignForm]; [campaign_form_valid] is the verdict of
    [validate_on_submit()]. *)
Record CampaignForm := mkCampaignForm {
  campaign_form_valid : bool;
  form_name : string;
  form_subject : string;
  form_content : string;
  form_template_type : string;
  form_target_segment : string
}.

(** The key an INTEGER PRIMARY KEY column gives a new campaign: 1 in an empty
    table, else one more than the largest key. *)
Definition next_campaign_id (table : gmap Z Campaign.t) : Z :=
  match (map_to_list table).*1 with
  | [] => 1
  | k :: ks => 1 + foldr Z.max k ks
  end.

(** The sessions of the admin area: a dictionary of integers and flags. *)
Inductive SessionValue :=
| SInt (n : Z)
| SBool (b : bool).

Module Admin.
Record t := mk {
  id : Z;
  username : string;
  email : string;
  password_hash : string;
  is_active : option bool;
  last_login : option Z;
  created_at : option Z
}.

Definition with_last_login (v : option Z) (a : t) : t :=
  mk (id a) (username a) (email a) (password_hash a) (is_active a) v
     (created_at a).
End Admin.

(** A submitted [LoginForm]; [login_form_valid] is the verdict of
    [validate_on_submit()]. *)
Record LoginForm := mkLoginForm {
  login_form_valid : bool;
  login_username : string;
  login_password : string
}.

(** [flask_bcrypt]: hashing draws a salt from the world; checking a
    password against a stored hash may raise on a malformed hash. *)
Class Bcrypt `{Deployment} := {
  generate_password_hash : World -> string -> string;
  check_password_hash : string -> string -> Res bool
}.

(** [Admin.query.filter_by(username=...).first()] *)
Definition find_admin (username : string) (admins : list Admin.t) : option Admin.t :=
  List.find (fun a => String.eqb (Admin.username a) username) admins.

(** Flushing a modified admin: [UPDATE admin SET ... WHERE id = ?]. *)
Definition update_admin (a : Admin.t) (admins : list Admin.t) : list Admin.t :=
  map (fun r => if Admin.id r =? Admin.id a then a else r) admins.

Definition next_admin_id (admins : list Admin.t) : Z :=
  match map Admin.id admins with
  | [] => 1
  | k :: ks => 1 + foldr Z.max k ks
  end.

(** A row with its delivery stamp blanked. *)
Definition unstamped (s : Subscriber.t) : Subscriber.t :=
  Subscriber.with_last_campaign_sent None s.


(** The SMTP commands among some events, and the messages handed over. *)
Definition smtp_commands (evs : list Event) : list SmtpCmd :=
  omap (fun ev => match ev with Smtp c => Some c | Printed _ => None end) evs.

Definition sent_messages (evs : list Event) : list Message :=
  omap (fun ev => match ev with
                  | Smtp (SmtpSendMessage m) => Some m
                  | _ => None
                  end) evs.

Section MoreRoutes.
Context `{Deployment}.

(** The commands of one SMTP session of [send_email] that got [k] steps
    far: the connection attempt alone when it was refused ([k = 0]), else
    the first [k - 1] of STARTTLS, LOGIN and the message, closed by QUIT. *)
Definition smtp_session (msg : Message) (k : nat) : list SmtpCmd :=
  SmtpConnect (SMTP_SERVER config) (SMTP_PORT config)
  :: match k with
     | O => []
     | S j =>
         take j [SmtpStartTls;
                 SmtpLogin (SMTP_USERNAME config) (SMTP_PASSWORD config);
                 SmtpSendMessage msg]
         ++ [SmtpQuit]
     end.

(** The message [send_email] builds. *)
Definition built_message (to_email subject html_content : string)
    (text_content : option string) : Message :=
  mkMessage subject (FROM_EMAIL config) to_email
    (match text_content with
     | Some text => if truthy text then [("plain", text)] else []
     | None => []
     end ++ [("html", html_content)])%list.

(** The message the loop of [send_campaign] hands to the transport for one
    address, with the token issued at time [now]. *)
Definition letter (campaign : Campaign.t) (address : string) (now : Z) : Message :=
  mkMessage (Campaign.subject campaign) (FROM_EMAIL config) address
    [("html",
      get_email_template (Campaign.template_type campaign)
        (Campaign.content campaign)
        (wire (issue "unsubscribe" now address)))].

Definition new_campaign (form : CampaignForm) (db : DB) : IO (DB * View) :=
  if campaign_form_valid form then
    now <- utcnow ;;
    let campaign :=
      Campaign.mk (form_name form) (form_subject form) (form_content form)
        (Some (form_template_type form)) (Some "draft")
        (Some (form_target_segment form)) (Some now) None
        (Some 0) (Some 0) (Some 0) (Some 0) in
    ret (save_campaign (next_campaign_id (campaigns db)) campaign db,
         Respond (FlashRedirect "Campaign created successfully!" "success"
                    url_admin_campaigns))
  else
    ret (db, RenderTemplate "admin/new_campaign.html" []).

Definition preview_campaign (campaign_id : Z) (db : DB) : IO View :=
  match campaigns db !! campaign_id with
  | None => ret (Respond Abort404)
  | Some campaign =>
      token <- serializer_dumps "preview@example.com" "unsubscribe" ;;
      ret (Html (get_email_template (Campaign.template_type campaign)
                   (Campaign.content campaign) token))
  end.

(** The answer of [@login_required] to a visitor without a session. *)
Definition please_login : View :=
  Respond (FlashRedirect "Please login to access this page." "warning"
             url_admin_login).

(** [@login_required]: without ['admin_id'] in the session the wrapped
    handler is not run. *)
Definition login_required (session : gmap string SessionValue)
    (f : DB -> IO (DB * View)) (db : DB) : IO (DB * View) :=
  if bool_decide (session !! "admin_id" = None) then ret (db, please_login)
  else f db.

Definition respond (m : IO (DB * Response)) : IO (DB * View) :=
  r <- m ;; ret (r.1, Respond r.2).

(** The admin routes as Flask serves them, decorator included. *)
Definition admin_send_campaign (session : gmap string SessionValue)
    (campaign_id : Z) : DB -> IO (DB * View) :=
  login_required session (fun db => respond (send_campaign campaign_id db)).

Definition admin_delete_campaign (session : gmap string SessionValue)
    (campaign_id : Z) : DB -> IO (DB * View) :=
  login_required session (fun db => respond (delete_campaign campaign_id db)).

Definition admin_new_campaign (session : gmap string SessionValue)
    (form : CampaignForm) : DB -> IO (DB * View) :=
  login_required session (new_campaign form).

Definition admin_preview_campaign (session : gmap string SessionValue)
    (campaign_id : Z) : DB -> IO (DB * View) :=
  login_required session
    (fun db => v <- preview_campaign campaign_id db ;; ret (db, v)).

(** [admin_logout]: the session is cleared.  Flashed messages travel with
    the response here, as everywhere in this model. *)
Definition admin_logout (session : gmap string SessionValue)
    : gmap string SessionValue * View :=
  (∅, Respond (FlashRedirect "You have been logged out." "info" url_admin_login)).
End MoreRoutes.

Section AdminAccounts.
Context `{Bcrypt}.

(** [Admin.set_password]: the hash the row is given. *)
Definition set_password (password : string) : IO string :=
  fun env => (env, Ok (generate_password_hash (world env) password)).

(** [Admin.check_password] *)
Definition check_password (a : Admin.t) (password : string) : IO bool :=
  fun env => (env, check_password_hash (Admin.password_hash a) password).

Definition admin_login (form : LoginForm) (session : gmap string SessionValue)
    (admins : list Admin.t)
    : IO (gmap string SessionValue * list Admin.t * View) :=
  if bool_decide (session !! "admin_id" = None) then
    if login_form_valid form then
      let invalid :=
        ret (session, admins,
             RenderTemplate "admin/login.html"
               [("Invalid username or password.", "error")]) in
      match find_admin (login_username form) admins with
      | Some admin =>
          matches <- check_password admin (login_password form) ;;
          if matches : bool then
            if default false (Admin.is_active admin) then
              now <- utcnow ;;
              ret (<["_permanent" := SBool true]>
                     (<["admin_id" := SInt (Admin.id admin)]> session),
                   update_admin (Admin.with_last_login (Some now) admin) admins,
                   Respond (FlashRedirect "Welcome back!" "success"
                              url_admin_dashboard))
            else
              ret (session, admins,
                   RenderTemplate "admin/login.html"
                     [("Account is deactivated.", "error")])
          else invalid
      | None => invalid
      end
    else
      ret (session, admins, RenderTemplate "admin/login.html" [])
  else
    ret (session, admins, Redirect url_admin_dashboard).

(** [init_db], on the admin table: the default account is created only when
    no admin is called ['admin']; the insert fails when the address of the
    default account is already taken, the [email] column being unique. *)
Definition init_db (admins : list Admin.t) : IO (list Admin.t) :=
  match find_admin "admin" admins with
  | Some _ => ret admins
  | None =>
      hash <- set_password "admin123" ;;
      if existsb (fun a => String.eqb (Admin.email a) "admin@insurancepro.com")
           admins
      then raise "IntegrityError"
      else
        now <- utcnow ;;
        let admin :=
          Admin.mk (next_admin_id admins) "admin" "admin@insurancepro.com" hash
            (Some true) None (Some now) in
        print "Default admin created - username: admin, password: admin123" ;;;
        ret (admins ++ [admin])%list
  end.
End AdminAccounts.

(** ** A small deployment to run the handlers on

    The clock is the world; every SMTP command takes a second; the relay
    refuses mail for one address.  The signature is a keyed checksum and a
    token is written as [issued:signature:email]. *)

Module Fixture.
Definition checksum (s : string) : Z :=
  fold_left (fun h a => (h * 31 + Z.of_nat (nat_of_ascii a)) mod 1000003)
    (list_ascii_of_string s) 7.

Definition keyed_checksum (key salt : string) (m : string * Z) : string :=
  pretty ((checksum (key +:+ "/" +:+ salt +:+ "/" +:+ m.1) * 31 + m.2)
            mod 1000003).

Fixpoint split_colon (s : string) : option (string * string) :=
  match s with
  | EmptyString => None
  | String a rest =>
      if Ascii.eqb a ":" then Some (EmptyString, rest)
      else match split_colon rest with
           | Some (l, r) => Some (String a l, r)
           | None => None
           end
  end.

Fixpoint digits (s : string) (acc : Z) : option Z :=
  match s with
  | EmptyString => Some acc
  | String a rest =>
      let d := Z.of_nat (nat_of_ascii a) - 48 in
      if (0 <=? d) && (d <=? 9) then digits rest (10 * acc + d) else None
  end.

Definition write_token (t : Token) : string :=
  pretty (tok_issued_at t) +:+ ":" +:+ tok_signature t +:+ ":" +:+ tok_email t.

Definition read_token (s : string) : option Token :=
  match split_colon s with
  | Some (issued, rest) =>
      match split_colon rest, digits issued 0 with
      | Some (signature, email), Some ts => Some (mkToken email ts signature)
      | _, _ => None
      end
  | None => None
  end.

Definition relay (w : Z) (c : SmtpCmd) : Z * option string :=
  (w + 1,
   match c with
   | SmtpSendMessage m =>
       if String.eqb (msg_to m) "bob@gmail.com"
       then Some "550 mailbox unavailable" else None
   | _ => None
   end).

Definition has_at (w : Z) (email : string) : bool :=
  existsb (Ascii.eqb "@") (list_ascii_of_string email).

Definition configured : Config :=
  mkConfig "s3cret" "smtp.gmail.com" 587 "mailer@gmail.com" "app-password"
    "noreply@insurancepro.com".

(** The defaults of [app.py] when the environment sets no SMTP variable. *)
Definition unconfigured : Config :=
  mkConfig "s3cret" "smtp.gmail.com" 587 EmptyString EmptyString
    "noreply@insurancepro.com".

Definition deployment (cfg : Config) : Deployment :=
  {| World := Z; clock := fun w => w; smtp_reply := relay;
     validate_email := has_at; mac := keyed_checksum;
     wire := write_token; unwire := read_token; config := cfg |}.

(** The site with its SMTP account set up, and without. *)
Definition live : Deployment := deployment configured.
Definition bare : Deployment := deployment unconfigured.

Definition at_time {cfg : Config} (w : Z) : @Env (deployment cfg) :=
  @mkEnv (deployment cfg) w [].

Definition row (id : Z) (email : string) (status : option string) : Subscriber.t :=
  Subscriber.mk id email (Some "Someone") (Some "555-0100") (Some "auto")
    status (Some 1000) None.

Definition alice := row 1 "alice@gmail.com" (Some "active").
Definition bob := row 2 "bob@gmail.com" (Some "active").
Definition carol := row 3 "carol@gmail.com" (Some "unsubscribed").
Definition dave := row 4 "dave@gmail.com" (Some EmptyString).
Definition erin := row 5 "erin@gmail.com" (Some "bounced").

Definition draft (segment : string) : Campaign.t :=
  Campaign.mk "Spring offer" "Save on your premium" "<p>Hello</p>"
    (Some "promotional") (Some "draft") (Some segment) (Some 900) None
    (Some 0) (Some 0) (Some 0) (Some 0).

(** The first draft once it has gone out at time 5000 to three recipients,
    one of whom the relay refused. *)
Definition spring_sent : Campaign.t :=
  Campaign.mk "Spring offer" "Save on your premium" "<p>Hello</p>"
    (Some "promotional") (Some "sent") (Some "all") (Some 900) (Some 5015)
    (Some 3) (Some 2) (Some 1) (Some 0).

Definition sent_one : Campaign.t :=
  Campaign.mk "Winter news" "News" "<p>Hi</p>" (Some "newsletter")
    (Some "sent") (Some "all") (Some 100) (Some 200) (Some 3) (Some 2)
    (Some 1) (Some 0).

Definition db0 : DB :=
  mkDB [alice; bob; carol; dave; erin]
       (<[1 := draft "all"]> (<[2 := draft "active"]> (<[7 := sent_one]> ∅))).

(** Nobody to write to: only lapsed and bounced subscribers. *)
Definition db_quiet : DB :=
  mkDB [carol; erin] (<[1 := draft "all"]> ∅).

Definition empty_db : DB := mkDB [] ∅.

Definition request (email name interest : string) : SubscribeRequest :=
  mkSubscribeRequest
    (<["email" := email]> (<["name" := name]> (<["insurance_type" := interest]> ∅)))
    (Some "XMLHttpRequest") None.

Definition alice_caps : Subscriber.t :=
  Subscriber.mk 1 "Alice@gmail.com" (Some "Alice") None (Some "auto")
    (Some "active") (Some 10) None.

Definition alice_small : Subscriber.t :=
  Subscriber.mk 2 "alice@gmail.com" (Some "Alice") None (Some "auto")
    (Some "active") (Some 20) None.

(** A visitor signs up twice, typing the address with and without a
    capital. *)
Definition two_signups {cfg : Config} : list (Op * @Env (deployment cfg)) :=
  [(OpSubscribe (request "Alice@gmail.com" "Alice" "auto"), at_time 10);
   (OpSubscribe (request "alice@gmail.com" "Alice" "auto"), at_time 20)].

(** A day in the life of the site. *)
Definition busy_day {cfg : Config} : list (Op * @Env (deployment cfg)) :=
  [(OpSubscribe (request " frank@gmail.com " "Frank" "home"), at_time 10);
   (OpSubscribe (request "carol@gmail.com" "Caz" "life"), at_time 20);
   (OpSendCampaign 1, at_time 5000);
   (OpUnsubscribe "5000:423901:alice@gmail.com", at_time 6000);
   (OpDeleteCampaign 2, at_time 7000);
   (OpSendCampaign 1, at_time 8000)].
(** A toy [flask_bcrypt]: the hash is the salt and the password, and a hash
    without a salt is malformed. *)
Definition toy_hash (w : Z) (password : string) : string :=
  pretty w +:+ ":" +:+ password.

Definition toy_check (hash password : string) : Res bool :=
  match split_colon hash with
  | Some (_, hashed) => Ok (String.eqb hashed password)
  | None => Raise "Invalid salt"
  end.

Definition vault : @Bcrypt live :=
  @Build_Bcrypt live toy_hash toy_check.

Definition root : Admin.t :=
  Admin.mk 1 "admin" "admin@insurancepro.com" "77:admin123" (Some true) None
    (Some 50).

Definition retired : Admin.t :=
  Admin.mk 2 "pat" "pat@insurancepro.com" "78:opensesame" (Some false) None
    (Some 60).

Definition staff : list Admin.t := [root; retired].

Definition anonymous : gmap string SessionValue := ∅.

Definition signed_in : gmap string SessionValue :=
  <["_permanent" := SBool true]> (<["admin_id" := SInt 1]> anonymous).

Definition credentials (username password : string) : LoginForm :=
  mkLoginForm true username password.

Definition autumn : CampaignForm :=
  mkCampaignForm true "Autumn offer" "Cover for the cold months"
    "<p>Hello again</p>" "newsletter" "active".


(** The token the send at time 5000 issues for the first subscriber. *)
Definition alice_token : Token := mkToken "alice@gmail.com" 5000 "423901".
End Fixture.

(** * Properties *)

(** ** Strings and the monad *)

Lemma append_assoc (a b c : string) : (a +:+ b) +:+ c = a +:+ (b +:+ c).
Proof.
  induction a as [|x a IH]; [reflexivity|].
  change (String x ((a +:+ b) +:+ c) = String x (a +:+ (b +:+ c))).
  by rewrite IH.
Qed.

(** A piece that straddles an interpolated value: it ends the text before
    the value and starts the text after it. *)
Lemma occurs_in_around (opening closing value : string)
    (front lead mid_text tail_text rest : string) :
  mid_text = lead +:+ opening ->
  tail_text = closing +:+ rest ->
  occurs_in (opening +:+ value +:+ closing)
    (front +:+ mid_text +:+ value +:+ tail_text).
Proof.
  intros -> ->. exists (front +:+ lead), rest.
  by rewrite !append_assoc.
Qed.

Lemma truthy_false (s : string) : truthy s = false <-> s = EmptyString.
Proof. destruct s; simpl; split; congruence. Qed.

(** ** Email Template Renderer *)

Section RendererFacts.
Variables content unsubscribe_token : string.

Let link := unsubscribe_link_of unsubscribe_token.
Let anchor :=
  "<a href=" +:+ dq +:+ "http://localhost:5000/unsubscribe/"
    +:+ unsubscribe_token +:+ dq +:+ ">".

Lemma template_default :
  get_email_template (Some "default") content unsubscribe_token
  = default_head +:+ content +:+ default_mid +:+ link +:+ default_tail.
Proof.
  unfold get_email_template, templates; cbn [mbind option_bind].
  do 2 (rewrite lookup_insert_ne by done). by rewrite lookup_insert_eq.
Qed.

Lemma template_promotional :
  get_email_template (Some "promotional") content unsubscribe_token
  = promotional_head +:+ content +:+ promotional_mid +:+ link +:+ promotional_tail.
Proof.
  unfold get_email_template, templates; cbn [mbind option_bind].
  rewrite lookup_insert_ne by done. by rewrite lookup_insert_eq.
Qed.

Lemma template_newsletter :
  get_email_template (Some "newsletter") content unsubscribe_token
  = newsletter_head +:+ content +:+ newsletter_mid +:+ link +:+ newsletter_tail.
Proof.
  unfold get_email_template, templates; cbn [mbind option_bind].
  by rewrite lookup_insert_eq.
Qed.

Lemma template_fallback (template_type : string) :
  template_type <> "default" ->
  template_type <> "promotional" ->
  template_type <> "newsletter" ->
  get_email_template (Some template_type) content unsubscribe_token
  = get_email_template (Some "default") content unsubscribe_token.
Proof.
  intros Hd Hp Hn. rewrite template_default.
  unfold get_email_template, templates; cbn [mbind option_bind].
  do 3 (rewrite (lookup_insert_ne _ _ template_type) by done).
  rewrite lookup_empty; cbn [default]. rewrite lookup_total_alt.
  do 2 (rewrite lookup_insert_ne by done). by rewrite lookup_insert_eq.
Qed.

Lemma template_null :
  get_email_template None content unsubscribe_token
  = get_email_template (Some "default") content unsubscribe_token.
Proof.
  rewrite template_default.
  unfold get_email_template, templates; cbn [mbind option_bind default].
  rewrite lookup_total_alt.
  do 2 (rewrite lookup_insert_ne by done). by rewrite lookup_insert_eq.
Qed.

(** C7. Rendering is a function of the variant, the body and the token
    alone; in each of the three variants the produced document contains
    the anchor [<a href="LINK">] whose LINK is the unsubscribe address,
    [http://localhost:5000/unsubscribe/] followed by the token received,
    written out unchanged; and any other variant string yields the document
    of the default variant. *)
Theorem render_embeds_link_and_falls_back (template_type : string) :
  template_type <> "default" ->
  template_type <> "promotional" ->
  template_type <> "newsletter" ->
  occurs_in anchor (get_email_template (Some "default") content unsubscribe_token)
  /\ occurs_in anchor (get_email_template (Some "promotional") content unsubscribe_token)
  /\ occurs_in anchor (get_email_template (Some "newsletter") content unsubscribe_token)
  /\ get_email_template (Some template_type) content unsubscribe_token
     = get_email_template (Some "default") content unsubscribe_token.
Proof.
  intros Hd Hp Hn.
  assert (anchor = ("<a href=" +:+ dq) +:+ link +:+ (dq +:+ ">")) as ->.
  { subst anchor link. unfold unsubscribe_link_of. by rewrite !append_assoc. }
  rewrite template_default at 1.
  rewrite template_promotional, template_newsletter.
  rewrite <- !(append_assoc _ content).
  split; [|split; [|split]].
  - apply (occurs_in_around _ _ _ _
             (substring 0 (String.length default_mid - 9) default_mid) _ _
             (substring 2 (String.length default_tail - 2) default_tail));
      by vm_compute.
  - apply (occurs_in_around _ _ _ _
             (substring 0 (String.length promotional_mid - 9) promotional_mid) _ _
             (substring 2 (String.length promotional_tail - 2) promotional_tail));
      by vm_compute.
  - apply (occurs_in_around _ _ _ _
             (substring 0 (String.length newsletter_mid - 9) newsletter_mid) _ _
             (substring 2 (String.length newsletter_tail - 2) newsletter_tail));
      by vm_compute.
  - by apply template_fallback.
Qed.
End RendererFacts.

(** ** Mail Transport *)

Section TransportFacts.
Context `{Deployment}.

(** C9. With the transport's user name or password empty, [send_email]
    returns [False] as an ordinary result (nothing is raised), issues no
    SMTP command at all, and leaves the world as it was; its only effect is
    the line it prints. *)
Theorem send_email_without_credentials
    (to_email subject html_content : string) (text_content : option string)
    (env : Env) :
  SMTP_USERNAME config = EmptyString \/ SMTP_PASSWORD config = EmptyString ->
  send_email to_email subject html_content text_content env
  = (mkEnv (world env) (trace env ++ [Printed "SMTP credentials not configured"]),
     Ok false).
Proof.
  intros Hcred. unfold send_email.
  assert (py_all [SMTP_USERNAME config; SMTP_PASSWORD config] = false) as ->.
  { unfold py_all; simpl.
    destruct Hcred as [-> | ->]; simpl; [done|].
    by rewrite andb_false_r. }
  reflexivity.
Qed.
End TransportFacts.

(** ** Recipient resolution *)

(** C2. With segment [active] the recipients are exactly the subscribers
    whose status is ['active']; with any other segment they are exactly
    those whose status is ['active'] or the empty string; in both cases rows
    keep their order, and no recipient is ['bounced'] or ['unsubscribed']. *)
Theorem resolve_recipients_exact (campaign : Campaign.t) (db : DB) :
  (forall s : Subscriber.t,
      s ∈ resolve_recipients campaign db <->
      s ∈ subscribers db /\
      ((Campaign.target_segment campaign = Some "active"
        /\ Subscriber.status s = Some "active")
       \/ (Campaign.target_segment campaign <> Some "active"
           /\ (Subscriber.status s = Some "active"
               \/ Subscriber.status s = Some EmptyString))))
  /\ resolve_recipients campaign db `sublist_of` subscribers db
  /\ Forall (fun s => Subscriber.status s <> Some "bounced"
                      /\ Subscriber.status s <> Some "unsubscribed")
       (resolve_recipients campaign db).
Proof.
  unfold resolve_recipients.
  case_bool_decide as Hseg.
  - split; [|split].
    + intros s. rewrite list_elem_of_filter. tauto.
    + apply sublist_filter.
    + apply Forall_forall. intros s [Hs _]%list_elem_of_filter.
      rewrite Hs. split; congruence.
  - split; [|split].
    + intros s. rewrite list_elem_of_filter.
      rewrite elem_of_cons, list_elem_of_singleton. tauto.
    + apply sublist_filter.
    + apply Forall_forall. intros s [Hs _]%list_elem_of_filter.
      apply elem_of_cons in Hs as [Hs | Hs%list_elem_of_singleton];
        rewrite Hs; split; congruence.
Qed.

(** ** Token Codec *)

Section TokenFacts.
Context `{Deployment}.

(** C3. A token issued for [email] verifies back to [email] when checked
    at the moment of issue; any token older than 31,536,000 seconds is
    rejected; and the issued token with its signature replaced by any
    other one is rejected as invalid. *)
Theorem token_round_trip_expiry_tamper
    (email : string) (issued now : Z) (t : Token) (signature : string) :
  UNSUBSCRIBE_MAX_AGE < now - tok_issued_at t ->
  signature <> tok_signature (issue "unsubscribe" issued email) ->
  verify "unsubscribe" UNSUBSCRIBE_MAX_AGE issued
    (issue "unsubscribe" issued email) = inr email
  /\ (exists err, verify "unsubscribe" UNSUBSCRIBE_MAX_AGE now t = inl err)
  /\ verify "unsubscribe" UNSUBSCRIBE_MAX_AGE now
       (mkToken email issued signature) = inl InvalidToken.
Proof.
  intros Hold Haltered. unfold verify, issue; simpl.
  rewrite String.eqb_refl; simpl.
  split; [|split].
  - rewrite Z.sub_diag. reflexivity.
  - destruct (negb _); [by eexists|].
    apply Z.ltb_lt in Hold. rewrite Hold. by eexists.
  - apply String.eqb_neq in Haltered. simpl in Haltered.
    by rewrite Haltered.
Qed.
End TokenFacts.

(** ** Campaign Dispatcher *)

Section DispatcherFacts.
Context `{Collaborators}.

(** An iteration always completes: whatever the [try] block does, the loop
    goes on with one counter moved. *)
Lemma send_one_completes campaign subscriber t env :
  send_one campaign subscriber t env
  = ((iteration campaign subscriber env).1,
     Ok (if (iteration campaign subscriber env).2
         then mkTally
                (update_subscriber
                   (Subscriber.with_last_campaign_sent
                      (Some (clock (world (iteration campaign subscriber env).1)))
                      subscriber)
                   (tally_db t))
                (sent_count t + 1) (failed_count t)
         else mkTally (tally_db t) (sent_count t) (failed_count t + 1))).
Proof.
  unfold send_one, iteration, try_except, bind.
  destruct (attempt campaign subscriber env) as [env1 [[|]|e]]; reflexivity.
Qed.

Lemma failures_cons delivered vs :
  failures (delivered :: vs) = (if delivered then 0 else 1) + failures vs.
Proof.
  unfold failures. rewrite filter_cons.
  destruct delivered; case_decide; try done; simpl length; lia.
Qed.

Lemma failures_bound vs : 0 <= failures vs <= Z.of_nat (length vs).
Proof.
  unfold failures. pose proof (length_filter (fun b : bool => b = false) vs). lia.
Qed.

Lemma send_all_tallies campaign subs : forall t env,
  exists env' t',
    send_all campaign subs t env = (env', Ok t')
    /\ campaigns (tally_db t') = campaigns (tally_db t)
    /\ failed_count t' = failed_count t + failures (verdicts campaign subs env)
    /\ sent_count t'
       = sent_count t + (Z.of_nat (length subs) - failures (verdicts campaign subs env))
    /\ length (verdicts campaign subs env) = length subs.
Proof.
  induction subs as [|subscriber rest IH]; intros t env.
  - exists env, t. cbn. unfold failures; cbn. repeat split; lia.
  - cbn [send_all verdicts]. unfold bind at 1.
    rewrite send_one_completes.
    destruct (iteration campaign subscriber env) as [env1 delivered] eqn:Hit.
    cbn [fst snd].
    match goal with |- context [send_all campaign rest ?t1 env1] =>
      destruct (IH t1 env1) as (env' & t' & Hrun & Hc & Hf & Hs & Hlen)
    end.
    exists env', t'. rewrite Hrun, failures_cons.
    cbn [length]. rewrite Hlen.
    destruct delivered; cbn [tally_db sent_count failed_count] in *;
      (split; [reflexivity|]); (split; [by rewrite Hc|]); repeat split; lia.
Qed.

(** The fields the loop body reads are those of the campaign as fetched. *)
Lemma verdicts_same_letter campaign campaign' subs : forall env,
  Campaign.template_type campaign' = Campaign.template_type campaign ->
  Campaign.content campaign' = Campaign.content campaign ->
  Campaign.subject campaign' = Campaign.subject campaign ->
  verdicts campaign' subs env = verdicts campaign subs env.
Proof.
  intros env Ht Hc Hs. revert env.
  induction subs as [|subscriber rest IH]; intros env; [reflexivity|].
  cbn [verdicts].
  assert (iteration campaign' subscriber env = iteration campaign subscriber env) as ->.
  { unfold iteration, attempt. by rewrite Ht, Hc, Hs. }
  destruct (iteration campaign subscriber env). by rewrite IH.
Qed.

Lemma nonempty_branch {A B} (l : list A) (a b : B) :
  l <> [] -> match l with [] => a | _ :: _ => b end = b.
Proof. by destruct l. Qed.

(** Past its guards the handler runs the whole loop and files the
    campaign with the final counters. *)
Lemma dispatch_runs campaign_id db env campaign :
  campaigns db !! campaign_id = Some campaign ->
  Campaign.status campaign <> Some "sent" ->
  resolve_recipients campaign db <> [] ->
  let subs := resolve_recipients campaign db in
  let vs := verdicts campaign subs env in
  let N := Z.of_nat (length subs) in
  let K := failures vs in
  exists env' db' message saved,
    send_campaign_with campaign_id db env
    = (env', Ok (db', Jsonify true message (Some (N - K, K))))
    /\ campaigns db' !! campaign_id = Some saved
    /\ saved
       = Campaign.with_failed_count (Some K)
           (Campaign.with_sent_count (Some (N - K))
              (Campaign.with_sent_at (Some (clock (world env')))
                 (Campaign.with_status (Some "sent")
                    (Campaign.with_total_recipients (Some N)
                       (Campaign.with_status (Some "sending") campaign))))).
Proof.
  intros Hget Hstatus Hsubs subs vs N K.
  unfold send_campaign_with. rewrite Hget.
  rewrite bool_decide_eq_false_2 by done.
  cbv zeta. rewrite nonempty_branch by done.
  fold subs. fold N.
  set (campaign1 := Campaign.with_total_recipients _ _).
  set (db1 := save_campaign campaign_id campaign1 db).
  destruct (send_all_tallies campaign1 subs (mkTally db1 0 0) env)
    as (env' & t' & Hrun & Hc & Hf & Hs & Hlen).
  rewrite (verdicts_same_letter campaign campaign1) in Hf, Hs, Hlen by done.
  fold vs in Hf, Hs, Hlen. fold K in Hf, Hs. fold N in Hs.
  cbn [failed_count sent_count] in Hf, Hs.
  unfold bind at 1. rewrite Hrun. unfold bind, utcnow, ret.
  rewrite Hf, Hs, !Z.add_0_l.
  eexists _, _, _, _. split; [reflexivity|].
  split; [apply lookup_insert_eq|]. reflexivity.
Qed.

(** C1. A dispatch that gets past the guards (the campaign exists, is not
    already sent, and has a non-empty recipient list of size N) always
    returns: with K the number of recipients whose delivery failed
    (the transport said no, or issuing the token, rendering or delivering
    raised), it answers with sent = N-K and failed = K and stores
    sent-count N-K, failed-count K, total-recipients N and status
    ['sent'].  Every recipient gets a verdict, whichever ones fail, and
    this holds for every token codec, renderer and transport the loop is
    run with. *)
Theorem send_campaign_tallies (campaign_id : Z) (db : DB) (env : Env)
    (campaign : Campaign.t) :
  campaigns db !! campaign_id = Some campaign ->
  Campaign.status campaign <> Some "sent" ->
  resolve_recipients campaign db <> [] ->
  let subs := resolve_recipients campaign db in
  let vs := verdicts campaign subs env in
  let N := Z.of_nat (length subs) in
  let K := failures vs in
  length vs = length subs
  /\ 0 <= K <= N
  /\ exists env' db' message saved,
       send_campaign_with campaign_id db env
       = (env', Ok (db', Jsonify true message (Some (N - K, K))))
       /\ campaigns db' !! campaign_id = Some saved
       /\ Campaign.sent_count saved = Some (N - K)
       /\ Campaign.failed_count saved = Some K
       /\ Campaign.total_recipients saved = Some N
       /\ Campaign.status saved = Some "sent".
Proof.
  intros Hget Hstatus Hsubs subs vs N K.
  assert (length vs = length subs) as Hlen.
  { destruct (send_all_tallies campaign subs (mkTally db 0 0) env)
      as (_ & _ & _ & _ & _ & _ & Hlen). exact Hlen. }
  split; [exact Hlen|]. split.
  { subst N K. rewrite <- Hlen. apply failures_bound. }
  destruct (dispatch_runs campaign_id db env campaign Hget Hstatus Hsubs)
    as (env' & db' & message & saved & Hrun & Hsaved & ->).
  exists env', db', message. eexists. split; [exact Hrun|].
  split; [exact Hsaved|]. by cbn.
Qed.

Lemma already_sent_is_noop campaign_id db env :
  is_sent campaign_id db ->
  send_campaign_with campaign_id db env
  = (env, Ok (db, Jsonify false "Campaign has already been sent." None)).
Proof.
  intros (campaign & Hget & Hstatus).
  unfold send_campaign_with. rewrite Hget.
  by rewrite bool_decide_eq_true_2.
Qed.

Lemma successful_send_is_sent campaign_id db env env1 db1 message counts :
  send_campaign_with campaign_id db env
  = (env1, Ok (db1, Jsonify true message counts)) ->
  is_sent campaign_id db1.
Proof.
  intros Hsend.
  destruct (campaigns db !! campaign_id) as [campaign|] eqn:Hget.
  - destruct (decide (Campaign.status campaign = Some "sent")) as [Hs|Hs].
    + rewrite already_sent_is_noop in Hsend by (by exists campaign).
      discriminate.
    + destruct (resolve_recipients campaign db) as [|s0 rest] eqn:Hsubs.
      * unfold send_campaign_with in Hsend.
        rewrite Hget, bool_decide_eq_false_2, Hsubs in Hsend by done.
        discriminate.
      * destruct (dispatch_runs campaign_id db env campaign Hget Hs)
          as (env' & db' & m & saved & Hrun & Hsaved & ->).
        { by rewrite Hsubs. }
        rewrite Hrun in Hsend. injection Hsend as <- <- _ _.
        by eexists.
  - unfold send_campaign_with in Hsend. rewrite Hget in Hsend.
    discriminate.
Qed.

Lemma no_recipients_is_noop campaign_id db env campaign :
  campaigns db !! campaign_id = Some campaign ->
  resolve_recipients campaign db = [] ->
  send_campaign_with campaign_id db env
  = (env, Ok (db, Jsonify false
                    (if bool_decide (Campaign.status campaign = Some "sent")
                     then "Campaign has already been sent."
                     else "No subscribers found for this campaign.")
                    None)).
Proof.
  intros Hget Hnone. unfold send_campaign_with.
  rewrite Hget, Hnone. by case_bool_decide.
Qed.
End DispatcherFacts.

(** ** Routes on a sent or an unaddressed campaign *)

Section RouteFacts.
Context `{Deployment}.

(** C4. A campaign marked ['sent'], in particular one that a send has just
    completed, is not touched again: sending it answers "already sent"
    and deleting it is refused, and either way both tables and the
    environment are exactly as before. *)
Theorem sent_campaign_is_terminal (campaign_id : Z) (db : DB) (env : Env) :
  (is_sent campaign_id db
   \/ exists db0 env0 env1 message counts,
        send_campaign campaign_id db0 env0
        = (env1, Ok (db, Jsonify true message counts))) ->
  send_campaign campaign_id db env
  = (env, Ok (db, Jsonify false "Campaign has already been sent." None))
  /\ delete_campaign campaign_id db env
     = (env, Ok (db, FlashRedirect "Cannot delete sent campaigns." "error"
                       url_admin_campaigns)).
Proof.
  intros Hsent.
  assert (is_sent campaign_id db) as Hmark.
  { destruct Hsent as [Hs | (db0 & env0 & env1 & message & counts & Hrun)];
      [exact Hs|].
    by eapply successful_send_is_sent. }
  split.
  - by apply already_sent_is_noop.
  - destruct Hmark as (campaign & Hget & Hstatus).
    unfold delete_campaign. rewrite Hget.
    by rewrite bool_decide_eq_true_2.
Qed.

(** C5. When no subscriber is eligible, [send_campaign] reports failure
    and changes nothing: both tables and the environment are as before, so
    the campaign keeps its status, counters and timestamps; unless the
    campaign was already sent, the message is the "no subscribers" one. *)
Theorem send_without_recipients (campaign_id : Z) (db : DB) (env : Env)
    (campaign : Campaign.t) :
  campaigns db !! campaign_id = Some campaign ->
  resolve_recipients campaign db = [] ->
  exists message,
    send_campaign campaign_id db env = (env, Ok (db, Jsonify false message None))
    /\ (Campaign.status campaign <> Some "sent" ->
        message = "No subscribers found for this campaign.").
Proof.
  intros Hget Hnone. eexists. split.
  - by apply no_recipients_is_noop.
  - intros Hstatus. by rewrite bool_decide_eq_false_2.
Qed.
End RouteFacts.

(** ** Subscriber Registry *)

Lemma find_app_fresh {A} (f : A -> bool) (l : list A) (x : A) :
  List.find f l = None -> f x = true -> List.find f (l ++ [x]) = Some x.
Proof.
  induction l as [|y l IH]; simpl; intros Hnone Hx.
  - by rewrite Hx.
  - destruct (f y); [done|]. by apply IH.
Qed.

Lemma find_none_filter (email : string) (rows : list Subscriber.t) :
  List.find (fun s => String.eqb (Subscriber.email s) email) rows = None ->
  filter (fun s => Subscriber.email s = email) rows = [].
Proof.
  induction rows as [|r rows IH]; simpl; intros Hnone; [done|].
  destruct (String.eqb_spec (Subscriber.email r) email) as [Heq|Hne]; [done|].
  rewrite filter_cons_False by done. by apply IH.
Qed.

Lemma find_none_fresh (email : string) (rows : list Subscriber.t) :
  List.find (fun s => String.eqb (Subscriber.email s) email) rows = None ->
  email ∉ map Subscriber.email rows.
Proof.
  induction rows as [|r rows IH]; simpl; intros Hnone.
  - apply not_elem_of_nil.
  - destruct (String.eqb_spec (Subscriber.email r) email) as [Heq|Hne]; [done|].
    apply not_elem_of_cons. split; [congruence|by apply IH].
Qed.

Lemma find_found (email : string) (rows : list Subscriber.t) (r : Subscriber.t) :
  List.find (fun s => String.eqb (Subscriber.email s) email) rows = Some r ->
  r ∈ rows /\ Subscriber.email r = email.
Proof.
  intros [Hin Heq]%find_some. split.
  - by apply list_elem_of_In.
  - by apply String.eqb_eq.
Qed.

(** The row found under an e-mail is still the one found after it has been
    rewritten in place with the same e-mail. *)
Lemma find_after_update (email : string) (rows : list Subscriber.t)
    (r r' : Subscriber.t) :
  List.find (fun s => String.eqb (Subscriber.email s) email) rows = Some r ->
  Subscriber.id r' = Subscriber.id r ->
  Subscriber.email r' = email ->
  List.find (fun s => String.eqb (Subscriber.email s) email)
    (map (fun x => if Subscriber.id x =? Subscriber.id r' then r' else x) rows)
  = Some r'.
Proof.
  intros Hfind Hid Hemail.
  induction rows as [|x rows IH]; simpl in *; [done|].
  destruct (Z.eqb_spec (Subscriber.id x) (Subscriber.id r')) as [Hx|Hx].
  - by rewrite Hemail, String.eqb_refl.
  - destruct (String.eqb (Subscriber.email x) email) eqn:Hxe.
    + injection Hfind as ->. congruence.
    + by apply IH.
Qed.

Section RegistryFacts.
Context `{Deployment}.

(** What [subscribe] does once the address has passed validation. *)
Lemma subscribe_valid req db env :
  let email := strip (default EmptyString (form req !! "email")) in
  let name := strip (default EmptyString (form req !! "name")) in
  let insurance_type := strip (default EmptyString (form req !! "insurance_type")) in
  truthy email = true ->
  validate_email (world env) email = true ->
  subscribe req db env
  = (env,
     Ok match filter_by_email email db with
        | Some existing =>
            if bool_decide (Subscriber.status existing = Some "unsubscribed") then
              (update_subscriber
                 (Subscriber.with_name
                    (if truthy name then Some name else Subscriber.name existing)
                    (Subscriber.with_status (Some "active") existing))
                 db,
               answer req true
                 "Welcome back! Your subscription has been reactivated."
                 "success")
            else (db, answer req false "You are already subscribed!" "info")
        | None =>
            (add_subscriber
               (Subscriber.mk (next_id (subscribers db)) email (Some name) None
                  (Some insurance_type) (Some "active")
                  (Some (clock (world env))) None)
               db,
             answer req true
               "Thank you for subscribing! You will receive our latest updates."
               "success")
        end).
Proof.
  intros email name insurance_type Htruthy Hvalid.
  unfold subscribe. fold email name insurance_type.
  unfold bind at 1. rewrite Htruthy.
  unfold validate_email_address. rewrite Hvalid. cbn [negb].
  destruct (filter_by_email email db) as [existing|]; [|reflexivity].
  by case_bool_decide.
Qed.

Lemma subscribe_invalid req db env :
  let email := strip (default EmptyString (form req !! "email")) in
  truthy email = false \/ validate_email (world env) email = false ->
  subscribe req db env
  = (env, Ok (db, answer req false "Please provide a valid email address."
                    "error")).
Proof.
  intros email Hbad.
  unfold subscribe. fold email. unfold bind at 1.
  destruct (truthy email); [|reflexivity].
  unfold validate_email_address.
  destruct Hbad as [Hbad|Hbad]; [done|]. by rewrite Hbad.
Qed.

(** The two shapes of an answer, written out. *)
Lemma answer_spelled (req : SubscribeRequest) (success : bool)
    (message category : string) :
  answer req success message category
  = if bool_decide (x_requested_with req = Some "XMLHttpRequest")
    then Jsonify success message None
    else FlashRedirect message category
           match referrer req with
           | Some (String a back) => String a back
           | _ => "/"
           end.
Proof.
  unfold answer, or_else, url_index, truthy.
  by destruct (referrer req) as [[|a back]|].
Qed.

(** C6. For an address that passes validation and has no row yet, a
    second identical [subscribe] answers "You are already subscribed!"
    (as JSON with [success] false to an XMLHttpRequest, else flashed with
    category [info] and a redirect to the referrer or the index), leaves
    the tables as the first call left them, and the table then holds
    exactly one row for the address. *)
Theorem subscribe_twice (req : SubscribeRequest) (db : DB) (env1 env2 : Env) :
  let email := strip (default EmptyString (form req !! "email")) in
  truthy email = true ->
  validate_email (world env1) email = true ->
  validate_email (world env2) email = true ->
  filter_by_email email db = None ->
  exists db1 response1,
    subscribe req db env1 = (env1, Ok (db1, response1))
    /\ subscribe req db1 env2
       = (env2,
          Ok (db1,
              if bool_decide (x_requested_with req = Some "XMLHttpRequest")
              then Jsonify false "You are already subscribed!" None
              else FlashRedirect "You are already subscribed!" "info"
                     match referrer req with
                     | Some (String a back) => String a back
                     | _ => "/"
                     end))
    /\ length (filter (fun s => Subscriber.email s = email) (subscribers db1))
       = 1%nat.
Proof.
  intros email Htruthy Hvalid1 Hvalid2 Hnone.
  pose proof (subscribe_valid req db env1 Htruthy Hvalid1) as Hfirst.
  cbv zeta in Hfirst. fold email in Hfirst. rewrite Hnone in Hfirst.
  eexists _, _. split; [exact Hfirst|].
  set (row := Subscriber.mk _ _ _ _ _ _ _ _) in *.
  assert (filter_by_email email (add_subscriber row db) = Some row) as Hfound.
  { unfold filter_by_email, add_subscriber; cbn [subscribers].
    apply find_app_fresh; [exact Hnone|]. apply String.eqb_refl. }
  split.
  - pose proof (subscribe_valid req (add_subscriber row db) env2 Htruthy Hvalid2)
      as Hsecond.
    cbv zeta in Hsecond. fold email in Hsecond. rewrite Hfound in Hsecond.
    rewrite Hsecond, bool_decide_eq_false_2 by done.
    by rewrite answer_spelled.
  - unfold add_subscriber; cbn [subscribers].
    rewrite filter_app, (find_none_filter email _ Hnone).
    by rewrite filter_cons_True.
Qed.

(** C10. Re-subscribing an address whose row is ['unsubscribed'] rewrites
    that row only: its status becomes ['active'], its name becomes the
    submitted name when that is not empty, and its key, e-mail, phone,
    insurance interest and both timestamps stay as they were, whatever
    insurance interest the request carries; the table keeps its length and
    the row is the one found under the address afterwards. *)
Theorem resubscribe_frame (req : SubscribeRequest) (db : DB) (env : Env)
    (existing : Subscriber.t) :
  let email := strip (default EmptyString (form req !! "email")) in
  let name := strip (default EmptyString (form req !! "name")) in
  truthy email = true ->
  validate_email (world env) email = true ->
  filter_by_email email db = Some existing ->
  Subscriber.status existing = Some "unsubscribed" ->
  exists db' row,
    subscribe req db env
    = (env, Ok (db', answer req true
                       "Welcome back! Your subscription has been reactivated."
                       "success"))
    /\ db' = update_subscriber row db
    /\ filter_by_email email db' = Some row
    /\ length (subscribers db') = length (subscribers db)
    /\ campaigns db' = campaigns db
    /\ Subscriber.status row = Some "active"
    /\ Subscriber.name row
       = (if truthy name then Some name else Subscriber.name existing)
    /\ Subscriber.id row = Subscriber.id existing
    /\ Subscriber.email row = Subscriber.email existing
    /\ Subscriber.phone row = Subscriber.phone existing
    /\ Subscriber.insurance_type row = Subscriber.insurance_type existing
    /\ Subscriber.subscribed_at row = Subscriber.subscribed_at existing
    /\ Subscriber.last_campaign_sent row = Subscriber.last_campaign_sent existing.
Proof.
  intros email name Htruthy Hvalid Hfound Hstatus.
  pose proof (subscribe_valid req db env Htruthy Hvalid) as Hrun.
  cbv zeta in Hrun. fold email name in Hrun.
  rewrite Hfound, bool_decide_eq_true_2 in Hrun by done.
  eexists _, _. split; [exact Hrun|].
  split; [reflexivity|]. split.
  - unfold filter_by_email, update_subscriber; cbn [subscribers].
    apply (find_after_update email _ existing); [exact Hfound|done|].
    by apply find_found in Hfound as [_ ?].
  - split; [apply length_map|]. by repeat split.
Qed.
End RegistryFacts.

(** ** Uniqueness of subscriber e-mails *)

Lemma keys_functional (ks : list (Z * string)) (i : Z) (e1 e2 : string) :
  NoDup (map fst ks) -> In (i, e1) ks -> In (i, e2) ks -> e1 = e2.
Proof.
  induction ks as [|[j e] ks IH]; simpl; intros Hnd H1 H2; [done|].
  apply NoDup_cons in Hnd as [Hj Hnd].
  assert (forall e', In (j, e') ks -> False) as Hfresh.
  { intros e' Hin. apply Hj, list_elem_of_In.
    apply (in_map fst) in Hin. exact Hin. }
  destruct H1 as [H1|H1], H2 as [H2|H2].
  - congruence.
  - injection H1 as -> ->. destruct (Hfresh _ H2).
  - injection H2 as -> ->. destruct (Hfresh _ H1).
  - by apply IH.
Qed.

Lemma registry_keys_ids db :
  map fst (registry_keys db) = map Subscriber.id (subscribers db).
Proof. unfold registry_keys. rewrite map_map. reflexivity. Qed.

Lemma registry_keys_emails db :
  map snd (registry_keys db) = map Subscriber.email (subscribers db).
Proof. unfold registry_keys. rewrite map_map. reflexivity. Qed.

Lemma row_key_listed db r :
  In r (subscribers db) ->
  In (Subscriber.id r, Subscriber.email r) (registry_keys db).
Proof.
  intros Hin. unfold registry_keys.
  exact (in_map (fun x => (Subscriber.id x, Subscriber.email x)) _ _ Hin).
Qed.

(** Rewriting a row under its own key and e-mail moves no key and no
    e-mail in the table. *)
Lemma update_subscriber_keys s db :
  unique_ids db ->
  In (Subscriber.id s, Subscriber.email s) (registry_keys db) ->
  registry_keys (update_subscriber s db) = registry_keys db.
Proof.
  intros Hids Hs. unfold unique_ids in Hids.
  rewrite <- registry_keys_ids in Hids.
  unfold registry_keys at 1, update_subscriber; cbn [subscribers].
  rewrite map_map. apply map_ext_in. intros r Hr.
  destruct (Z.eqb_spec (Subscriber.id r) (Subscriber.id s)) as [Hid|Hid]; [|done].
  rewrite <- Hid. f_equal.
  apply (keys_functional _ (Subscriber.id r) _ _ Hids);
    [by rewrite Hid|by apply row_key_listed].
Qed.

Lemma next_id_above (rows : list Subscriber.t) (r : Subscriber.t) :
  In r rows -> Subscriber.id r < next_id rows.
Proof.
  unfold next_id. induction rows as [|x rows IH]; simpl; [done|].
  intros [->|Hin]; [lia|]. specialize (IH Hin). lia.
Qed.

Lemma lookup_map {A B} (f : A -> B) (l : list A) (i : nat) :
  map f l !! i = f <$> l !! i.
Proof.
  revert i. induction l as [|x l IH]; intros [|i]; simpl; auto.
Qed.

Lemma exact_unique_NoDup db :
  unique_up_to (fun e => e) db <-> NoDup (map Subscriber.email (subscribers db)).
Proof.
  rewrite NoDup_alt. unfold unique_up_to. split.
  - intros Huniq i j e. rewrite !lookup_map.
    intros (r1 & H1 & ->)%fmap_Some (r2 & H2 & He)%fmap_Some.
    by apply (Huniq i j r1 r2).
  - intros Hnd i j r1 r2 H1 H2 He.
    apply (Hnd i j (Subscriber.email r1)); rewrite lookup_map.
    + by rewrite H1.
    + by rewrite H2, He.
Qed.

(** Keys and e-mails are both free of repetitions. *)
Lemma keys_decide_uniqueness db db' :
  registry_keys db' = registry_keys db ->
  unique_ids db /\ unique_up_to (fun e => e) db ->
  unique_ids db' /\ unique_up_to (fun e => e) db'.
Proof.
  intros Hkeys. rewrite !exact_unique_NoDup. unfold unique_ids.
  by rewrite <- !registry_keys_ids, <- !registry_keys_emails, Hkeys.
Qed.

Lemma add_subscriber_unique db email name phone interest status since sent :
  List.find (fun s => String.eqb (Subscriber.email s) email) (subscribers db) = None ->
  unique_ids db /\ unique_up_to (fun e => e) db ->
  let row := Subscriber.mk (next_id (subscribers db)) email name phone interest
               status since sent in
  unique_ids (add_subscriber row db)
  /\ unique_up_to (fun e => e) (add_subscriber row db).
Proof.
  intros Hnone [Hids Hemails] row. rewrite exact_unique_NoDup in *.
  unfold unique_ids, add_subscriber in *; cbn [subscribers].
  rewrite !map_app. split; apply NoDup_app; (split; [done|]);
    (split; [|apply NoDup_singleton]); intros x Hx; cbn;
    rewrite list_elem_of_singleton; intros ->.
  - apply list_elem_of_In, in_map_iff in Hx as (r & Hr & Hin).
    pose proof (next_id_above _ _ Hin). lia.
  - by apply (find_none_fresh email (subscribers db)).
Qed.

Section UniquenessFacts.
Context `{Deployment}.

Section AnyCollaborators.
Context `{!Collaborators}.

Lemma send_all_keys campaign subs : forall t env env' t',
  unique_ids (tally_db t) ->
  (forall s, In s subs ->
             In (Subscriber.id s, Subscriber.email s) (registry_keys (tally_db t))) ->
  send_all campaign subs t env = (env', Ok t') ->
  registry_keys (tally_db t') = registry_keys (tally_db t).
Proof.
  induction subs as [|s rest IH]; intros t env env' t' Hids Hsubs Hrun.
  - cbn in Hrun. injection Hrun as _ <-. reflexivity.
  - cbn [send_all] in Hrun. unfold bind at 1 in Hrun.
    rewrite send_one_completes in Hrun.
    set (env1 := (iteration campaign s env).1) in *.
    set (t1 := if (iteration campaign s env).2
               then _ else _) in *.
    assert (registry_keys (tally_db t1) = registry_keys (tally_db t)) as Hstep.
    { subst t1. destruct (iteration campaign s env).2;
        cbn [tally_db]; [|reflexivity].
      apply update_subscriber_keys; [exact Hids|].
      apply (Hsubs s). by left. }
    rewrite <- Hstep. apply (IH t1 env1 env' t'); [| |exact Hrun].
    + unfold unique_ids in *.
      by rewrite <- registry_keys_ids, Hstep, registry_keys_ids.
    + intros s' Hs'. rewrite Hstep. apply Hsubs. by right.
Qed.

Lemma send_campaign_with_keys campaign_id db env env' db' response :
  unique_ids db ->
  send_campaign_with campaign_id db env
  = (env', Ok (db', response)) ->
  registry_keys db' = registry_keys db.
Proof.
  intros Hids Hrun. unfold send_campaign_with in Hrun.
  destruct (campaigns db !! campaign_id) as [campaign|];
    [|by injection Hrun as _ <- _].
  case_bool_decide; [by injection Hrun as _ <- _|].
  cbv zeta in Hrun.
  destruct (resolve_recipients campaign db) as [|s0 rest] eqn:Hsubs;
    [by injection Hrun as _ <- _|].
  set (campaign1 := Campaign.with_total_recipients _ _) in Hrun.
  set (db1 := save_campaign campaign_id campaign1 db) in Hrun.
  destruct (send_all_tallies campaign1 (s0 :: rest)
              (mkTally db1 0 0) env) as (env1 & t1 & Hloop & _).
  unfold bind at 1 in Hrun. rewrite Hloop in Hrun.
  unfold bind, utcnow, ret in Hrun. injection Hrun as _ <- _.
  change (registry_keys (tally_db t1) = registry_keys (tally_db (mkTally db1 0 0))).
  apply (send_all_keys campaign1 (s0 :: rest) _ env env1); [exact Hids| |exact Hloop].
  intros s Hs. apply (row_key_listed db).
  rewrite <- Hsubs in Hs. apply list_elem_of_In in Hs.
  apply list_elem_of_In.
  unfold resolve_recipients in Hs.
  by case_bool_decide; apply list_elem_of_filter in Hs as [_ ?].
Qed.
End AnyCollaborators.

Lemma subscribe_unique req db env env' db' response :
  unique_ids db /\ unique_up_to (fun e => e) db ->
  subscribe req db env = (env', Ok (db', response)) ->
  unique_ids db' /\ unique_up_to (fun e => e) db'.
Proof.
  intros Hok Hrun.
  set (email := strip (default EmptyString (form req !! "email"))).
  destruct (truthy email) eqn:Htruthy;
    [destruct (validate_email (world env) email) eqn:Hvalid|].
  - rewrite subscribe_valid in Hrun by done. fold email in Hrun.
    destruct (filter_by_email email db) as [existing|] eqn:Hfound.
    + case_bool_decide; injection Hrun as _ <- _; [|exact Hok].
      apply (keys_decide_uniqueness db); [|exact Hok].
      apply update_subscriber_keys; [apply Hok|].
      apply find_found in Hfound as [Hin _].
      by apply (row_key_listed db existing), list_elem_of_In.
    + injection Hrun as _ <- _. by apply add_subscriber_unique.
  - rewrite subscribe_invalid in Hrun by (by right).
    by injection Hrun as _ <- _.
  - rewrite subscribe_invalid in Hrun by (by left).
    by injection Hrun as _ <- _.
Qed.

Lemma unsubscribe_unique token db env env' db' response :
  unique_ids db /\ unique_up_to (fun e => e) db ->
  unsubscribe token db env = (env', Ok (db', response)) ->
  unique_ids db' /\ unique_up_to (fun e => e) db'.
Proof.
  intros Hok Hrun. unfold unsubscribe, try_except, bind at 1 in Hrun.
  destruct (serializer_loads token "unsubscribe" UNSUBSCRIBE_MAX_AGE env)
    as [env1 [email|e]]; [|by injection Hrun as _ <- _].
  destruct (filter_by_email email db) as [subscriber|] eqn:Hfound;
    injection Hrun as _ <- _; [|exact Hok].
  apply (keys_decide_uniqueness db); [|exact Hok].
  apply update_subscriber_keys; [apply Hok|].
  apply find_found in Hfound as [Hin _].
  by apply (row_key_listed db subscriber), list_elem_of_In.
Qed.

Lemma request_keeps_unique op env db :
  unique_ids db /\ unique_up_to (fun e => e) db ->
  unique_ids (db_after op env db)
  /\ unique_up_to (fun e => e) (db_after op env db).
Proof.
  intros Hok. unfold db_after.
  destruct (handle op db env) as [env' [[db' response]|e]] eqn:Hrun;
    [|exact Hok].
  destruct op as [req|token|campaign_id|campaign_id]; cbn [handle] in Hrun.
  - by eapply subscribe_unique.
  - by eapply unsubscribe_unique.
  - apply (keys_decide_uniqueness db); [|exact Hok].
    eapply send_campaign_with_keys; [apply Hok|exact Hrun].
  - unfold delete_campaign in Hrun.
    destruct (campaigns db !! campaign_id) as [campaign|];
      [|by injection Hrun as _ <- _].
    by case_bool_decide; injection Hrun as _ <- _.
Qed.

(** C8, as the code has it.  Subscriber e-mails are unique as exact
    strings: from a table whose keys and e-mails are free of repetitions,
    no sequence of subscribe (reactivation included), unsubscribe, send
    and delete requests, each met in any environment, produces two rows
    with the same e-mail, whatever their statuses. *)
Theorem emails_stay_unique (ops : list (Op * Env)) (db : DB) :
  unique_ids db ->
  unique_up_to (fun e => e) db ->
  unique_ids (run ops db) /\ unique_up_to (fun e => e) (run ops db).
Proof.
  intros Hids Hemails. pose proof (conj Hids Hemails) as Hok.
  clear Hids Hemails. revert db Hok.
  induction ops as [|[op env] rest IH]; intros db Hok; [exact Hok|].
  cbn [run]. by apply IH, request_keeps_unique.
Qed.
End UniquenessFacts.

(** * The properties at work on the small deployment *)

Section Instances.
Import Fixture.

Example strip_spaces :
  strip (bytes [226; 128; 138; 32]%nat +:+ "frank@gmail.com" +:+ bytes [9; 194; 160]%nat)
  = "frank@gmail.com".
Proof. by vm_compute. Qed.

Example recipients_all : resolve_recipients (draft "all") db0 = [alice; bob; dave].
Proof. by vm_compute. Qed.

Example recipients_active : resolve_recipients (draft "active") db0 = [alice; bob].
Proof. by vm_compute. Qed.

Example verdicts_db0 :
  @verdicts live application (draft "all") [alice; bob; dave] (at_time 5000)
  = [true; false; true].
Proof. by vm_compute. Qed.

Example refused_delivery_trace :
  trace (@send_email live "bob@gmail.com" "News" "<p>Hi</p>" None (at_time 0)).1
  = [Smtp (SmtpConnect "smtp.gmail.com" 587); Smtp SmtpStartTls;
     Smtp (SmtpLogin "mailer@gmail.com" "app-password");
     Smtp (SmtpSendMessage
             (mkMessage "News" "noreply@insurancepro.com" "bob@gmail.com"
                [("html", "<p>Hi</p>")]));
     Smtp SmtpQuit;
     Printed "Error sending email: 550 mailbox unavailable"].
Proof. by vm_compute. Qed.

Example issued_token_unsubscribes :
  (@serializer_dumps live "alice@gmail.com" "unsubscribe" (at_time 5000)).2
  = Ok "5000:423901:alice@gmail.com"
  /\ exists db',
       (@unsubscribe live "5000:423901:alice@gmail.com" db0 (at_time 6000)).2
       = Ok (db', FlashRedirect "You have been successfully unsubscribed."
                    "success" url_index)
       /\ Subscriber.status <$> filter_by_email "alice@gmail.com" db'
          = Some (Some "unsubscribed").
Proof. split; [by vm_compute|]. eexists. split; [reflexivity|]. by vm_compute. Qed.

Lemma send_campaign_tallies_witness :
  campaigns db0 !! 1 = Some (draft "all")
  /\ Campaign.status (draft "all") <> Some "sent"
  /\ resolve_recipients (draft "all") db0 <> []
  /\ exists env' db' message saved,
       @send_campaign live 1 db0 (at_time 5000)
       = (env', Ok (db', Jsonify true message (Some (2, 1))))
       /\ campaigns db' !! 1 = Some saved
       /\ Campaign.sent_count saved = Some 2
       /\ Campaign.failed_count saved = Some 1
       /\ Campaign.total_recipients saved = Some 3
       /\ Campaign.status saved = Some "sent".
Proof.
  assert (campaigns db0 !! 1 = Some (draft "all")) as Hget by (by vm_compute).
  assert (Campaign.status (draft "all") <> Some "sent") as Hstatus by (by vm_compute).
  assert (resolve_recipients (draft "all") db0 <> []) as Hsubs by (by vm_compute).
  split; [exact Hget|]. split; [exact Hstatus|]. split; [exact Hsubs|].
  exact (proj2 (proj2 (@send_campaign_tallies live application 1 db0 (at_time 5000)
                         (draft "all") Hget Hstatus Hsubs))).
Defined.

Lemma token_round_trip_expiry_tamper_witness :
  UNSUBSCRIBE_MAX_AGE
    < 40000000 - tok_issued_at (@issue live "unsubscribe" 5000 "alice@gmail.com")
  /\ "000000" <> tok_signature (@issue live "unsubscribe" 5000 "alice@gmail.com")
  /\ @verify live "unsubscribe" UNSUBSCRIBE_MAX_AGE 5000
       (@issue live "unsubscribe" 5000 "alice@gmail.com") = inr "alice@gmail.com"
  /\ (exists err,
         @verify live "unsubscribe" UNSUBSCRIBE_MAX_AGE 40000000
           (@issue live "unsubscribe" 5000 "alice@gmail.com") = inl err)
  /\ @verify live "unsubscribe" UNSUBSCRIBE_MAX_AGE 40000000
       (mkToken "alice@gmail.com" 5000 "000000") = inl InvalidToken.
Proof.
  assert (UNSUBSCRIBE_MAX_AGE
          < 40000000 - tok_issued_at (@issue live "unsubscribe" 5000 "alice@gmail.com"))
    as Hold by (by vm_compute).
  assert ("000000" <> tok_signature (@issue live "unsubscribe" 5000 "alice@gmail.com"))
    as Haltered by (by vm_compute).
  split; [exact Hold|]. split; [exact Haltered|].
  exact (@token_round_trip_expiry_tamper live "alice@gmail.com" 5000 40000000
           _ "000000" Hold Haltered).
Defined.

Lemma sent_campaign_is_terminal_witness :
  let db := @db_after live (OpSendCampaign 1) (at_time 5000) db0 in
  campaigns db !! 1 = Some spring_sent
  /\ Campaign.status spring_sent = Some "sent"
  /\ @send_campaign live 1 db (at_time 9000)
     = (at_time 9000, Ok (db, Jsonify false "Campaign has already been sent." None))
  /\ @delete_campaign live 1 db (at_time 9000)
     = (at_time 9000,
        Ok (db, FlashRedirect "Cannot delete sent campaigns." "error"
                  url_admin_campaigns)).
Proof.
  intros db.
  assert (campaigns db !! 1 = Some spring_sent) as Hget by (by vm_compute).
  assert (Campaign.status spring_sent = Some "sent") as Hstatus by reflexivity.
  split; [exact Hget|]. split; [exact Hstatus|].
  exact (@sent_campaign_is_terminal live 1 db (at_time 9000)
           (or_introl (ex_intro _ spring_sent (conj Hget Hstatus)))).
Defined.

Lemma send_without_recipients_witness :
  campaigns db_quiet !! 1 = Some (draft "all")
  /\ resolve_recipients (draft "all") db_quiet = []
  /\ exists message,
       @send_campaign live 1 db_quiet (at_time 5000)
       = (at_time 5000, Ok (db_quiet, Jsonify false message None))
       /\ (Campaign.status (draft "all") <> Some "sent" ->
           message = "No subscribers found for this campaign.").
Proof.
  assert (campaigns db_quiet !! 1 = Some (draft "all")) as Hget by (by vm_compute).
  assert (resolve_recipients (draft "all") db_quiet = []) as Hnone by (by vm_compute).
  split; [exact Hget|]. split; [exact Hnone|].
  exact (@send_without_recipients live 1 db_quiet (at_time 5000) _ Hget Hnone).
Defined.

Lemma subscribe_twice_witness :
  let req := request " frank@gmail.com " "Frank" "home" in
  truthy "frank@gmail.com" = true
  /\ @validate_email live 10 "frank@gmail.com" = true
  /\ @validate_email live 20 "frank@gmail.com" = true
  /\ filter_by_email "frank@gmail.com" db0 = None
  /\ exists db1 response1,
       @subscribe live req db0 (at_time 10) = (at_time 10, Ok (db1, response1))
       /\ @subscribe live req db1 (at_time 20)
          = (at_time 20,
             Ok (db1, Jsonify false "You are already subscribed!" None))
       /\ length (filter (fun s => Subscriber.email s = "frank@gmail.com")
                    (subscribers db1)) = 1%nat.
Proof.
  intros req.
  assert (filter_by_email "frank@gmail.com" db0 = None) as Hnone by (by vm_compute).
  do 3 (split; [reflexivity|]). split; [exact Hnone|].
  apply (@subscribe_twice live req db0 (at_time 10) (at_time 20));
    by vm_compute.
Defined.

Lemma render_embeds_link_and_falls_back_witness :
  let content := "<p>Hello</p>" in
  let token := "5000:423901:alice@gmail.com" in
  let anchor :=
    "<a href=" +:+ dq
      +:+ "http://localhost:5000/unsubscribe/5000:423901:alice@gmail.com"
      +:+ dq +:+ ">" in
  "seasonal" <> "default"
  /\ "seasonal" <> "promotional"
  /\ "seasonal" <> "newsletter"
  /\ occurs_in anchor (get_email_template (Some "default") content token)
  /\ occurs_in anchor (get_email_template (Some "promotional") content token)
  /\ occurs_in anchor (get_email_template (Some "newsletter") content token)
  /\ get_email_template (Some "seasonal") content token
     = get_email_template (Some "default") content token.
Proof.
  intros content token anchor. do 3 (split; [done|]).
  apply (render_embeds_link_and_falls_back content token "seasonal"); done.
Defined.

Lemma emails_stay_unique_witness :
  unique_ids db0
  /\ unique_up_to (fun e => e) db0
  /\ unique_ids (@run live busy_day db0)
  /\ unique_up_to (fun e => e) (@run live busy_day db0).
Proof.
  assert (unique_ids db0) as Hids.
  { apply (bool_decide_unpack _). by vm_compute. }
  assert (unique_up_to (fun e => e) db0) as Hemails.
  { apply exact_unique_NoDup, (bool_decide_unpack _). by vm_compute. }
  split; [exact Hids|]. split; [exact Hemails|].
  exact (@emails_stay_unique live busy_day db0 Hids Hemails).
Defined.

Lemma send_email_without_credentials_witness :
  (SMTP_USERNAME (@config bare) = EmptyString
   \/ SMTP_PASSWORD (@config bare) = EmptyString)
  /\ @send_email bare "alice@gmail.com" "Save on your premium" "<p>Hello</p>" None
       (at_time 5000)
     = (@mkEnv bare 5000 [Printed "SMTP credentials not configured"], Ok false).
Proof.
  assert (SMTP_USERNAME (@config bare) = EmptyString
          \/ SMTP_PASSWORD (@config bare) = EmptyString) as Hcred by (by left).
  split; [exact Hcred|].
  exact (@send_email_without_credentials bare "alice@gmail.com"
           "Save on your premium" "<p>Hello</p>" None (at_time 5000) Hcred).
Defined.

Lemma resubscribe_frame_witness :
  let req := request "carol@gmail.com" "Caz" "life" in
  truthy "carol@gmail.com" = true
  /\ @validate_email live 20 "carol@gmail.com" = true
  /\ filter_by_email "carol@gmail.com" db0 = Some carol
  /\ Subscriber.status carol = Some "unsubscribed"
  /\ exists db' row,
       @subscribe live req db0 (at_time 20)
       = (at_time 20,
          Ok (db', answer req true
                     "Welcome back! Your subscription has been reactivated."
                     "success"))
       /\ db' = update_subscriber row db0
       /\ filter_by_email "carol@gmail.com" db' = Some row
       /\ length (subscribers db') = length (subscribers db0)
       /\ campaigns db' = campaigns db0
       /\ Subscriber.status row = Some "active"
       /\ Subscriber.name row = Some "Caz"
       /\ Subscriber.id row = 3
       /\ Subscriber.email row = "carol@gmail.com"
       /\ Subscriber.phone row = Some "555-0100"
       /\ Subscriber.insurance_type row = Some "auto"
       /\ Subscriber.subscribed_at row = Some 1000
       /\ Subscriber.last_campaign_sent row = None.
Proof.
  intros req.
  assert (filter_by_email "carol@gmail.com" db0 = Some carol) as Hfound
    by (by vm_compute).
  do 2 (split; [reflexivity|]). split; [exact Hfound|]. split; [reflexivity|].
  apply (@resubscribe_frame live req db0 (at_time 20) carol); by vm_compute.
Defined.

(** C8, as stated, fails: the two spellings of one address, met by an
    empty table, end up as two rows whose e-mails agree up to letter
    case. *)
Lemma case_variants_coexist :
  unique_up_to lower empty_db
  /\ subscribers (@run live two_signups empty_db) = [alice_caps; alice_small]
  /\ lower (Subscriber.email alice_caps) = lower (Subscriber.email alice_small)
  /\ ~ unique_up_to lower (@run live two_signups empty_db).
Proof.
  split; [by intros [|i] j r1 r2 H1|].
  assert (subscribers (@run live two_signups empty_db) = [alice_caps; alice_small])
    as Hrows by (by vm_compute).
  split; [exact Hrows|]. split; [by vm_compute|].
  intros Huniq.
  assert (0 = 1)%nat as Habsurd; [|discriminate].
  apply (Huniq 0%nat 1%nat alice_caps alice_small).
  - by rewrite Hrows.
  - by rewrite Hrows.
  - by vm_compute.
Qed.
End Instances.

(** * Further properties of the code *)

(** ** Mail Transport: the SMTP session of [send_email] *)

Lemma smtp_commands_app (a b : list Event) :
  smtp_commands (a ++ b) = (smtp_commands a ++ smtp_commands b)%list.
Proof. apply omap_app. Qed.

Lemma smtp_commands_smtp (cs : list SmtpCmd) : smtp_commands (map Smtp cs) = cs.
Proof.
  unfold smtp_commands. induction cs as [|c cs IH]; [done|]. cbn. by rewrite IH.
Qed.

Lemma sent_messages_app (a b : list Event) :
  sent_messages (a ++ b) = (sent_messages a ++ sent_messages b)%list.
Proof. apply omap_app. Qed.

Lemma py_all_credentials (user password : string) :
  py_all [user; password] = true <-> user <> EmptyString /\ password <> EmptyString.
Proof. destruct user, password; cbn; split; intros; try done; tauto. Qed.

Section TransportSessions.
Context `{Deployment}.

Ltac relay_replies :=
  repeat (cbn [world trace];
          match goal with
          | |- context [smtp_reply ?w ?c] =>
              destruct (smtp_reply w c) as [? [?|]]
          end).

Ltac session_of_length k :=
  solve [ eexists _, _, k, _; split; [reflexivity|];
          split; [cbn; rewrite <- ?app_assoc; reflexivity|];
          split; [lia|]; first [by split | by eexists] ].

(** With credentials configured, every call is one SMTP session that gets
    some way and then either reports success or prints one error line. *)
Lemma send_email_outcomes to_email subject html_content text_content env :
  py_all [SMTP_USERNAME config; SMTP_PASSWORD config] = true ->
  exists (env' : Env) (delivered : bool) (k : nat) (lines : list Event),
    send_email to_email subject html_content text_content env
    = (env', Ok delivered)
    /\ trace env'
       = (trace env
          ++ map Smtp (smtp_session
                         (built_message to_email subject html_content text_content) k)
          ++ lines)%list
    /\ (k <= 4)%nat
    /\ (if delivered then k = 4%nat /\ lines = []
        else exists e, lines = [Printed ("Error sending email: " +:+ e)]).
Proof.
  intros Hcred. unfold send_email. rewrite Hcred. cbn [negb].
  fold (built_message to_email subject html_content text_content).
  set (msg := built_message _ _ _ _).
  unfold try_except, with_smtp, bind, finally, smtp, print, emit, ret.
  relay_replies; cbn [world trace];
    first [ session_of_length 0%nat | session_of_length 1%nat
          | session_of_length 2%nat | session_of_length 3%nat
          | session_of_length 4%nat ].
Qed.

(** X1. Whatever the relay does, [send_email] returns a boolean and never
    raises; it only appends to the event log, and the SMTP commands it
    issues are none at all (no credentials) or one session: a single
    connection attempt, then STARTTLS, LOGIN and the message in this order
    as far as the relay lets it get, and QUIT whenever the connection was
    opened. *)
Theorem send_email_one_session (to_email subject html_content : string)
    (text_content : option string) (env : Env) :
  exists (env' : Env) (delivered : bool) (evs : list Event),
    send_email to_email subject html_content text_content env
    = (env', Ok delivered)
    /\ trace env' = (trace env ++ evs)%list
    /\ (smtp_commands evs = []
        \/ exists k, (k <= 4)%nat
             /\ smtp_commands evs
                = smtp_session
                    (built_message to_email subject html_content text_content) k).
Proof.
  destruct (py_all [SMTP_USERNAME config; SMTP_PASSWORD config]) eqn:Hcred.
  - destruct (send_email_outcomes to_email subject html_content text_content
                env Hcred) as (env' & delivered & k & lines & Hrun & Htrace & Hk & Hd).
    exists env', delivered. eexists. split; [exact Hrun|].
    split; [exact Htrace|]. right. exists k. split; [exact Hk|].
    rewrite smtp_commands_app, smtp_commands_smtp.
    destruct delivered.
    + destruct Hd as [_ ->]. by rewrite app_nil_r.
    + destruct Hd as [e ->]. by rewrite app_nil_r.
  - unfold send_email. rewrite Hcred. cbn [negb].
    eexists _, _, _. split; [reflexivity|]. split; [reflexivity|]. by left.
Qed.

(** X2. [send_email] answers [True] only after a complete session: the
    events it added are exactly the connection to the configured relay,
    STARTTLS, LOGIN with the configured credentials, the message (subject,
    sender, recipient, optional plain part, HTML part) and QUIT, with
    nothing printed. *)
Theorem send_email_true_is_complete (to_email subject html_content : string)
    (text_content : option string) (env env' : Env) :
  send_email to_email subject html_content text_content env = (env', Ok true) ->
  trace env'
  = (trace env
     ++ [Smtp (SmtpConnect (SMTP_SERVER config) (SMTP_PORT config));
         Smtp SmtpStartTls;
         Smtp (SmtpLogin (SMTP_USERNAME config) (SMTP_PASSWORD config));
         Smtp (SmtpSendMessage
                 (built_message to_email subject html_content text_content));
         Smtp SmtpQuit])%list.
Proof.
  intros Hrun.
  destruct (py_all [SMTP_USERNAME config; SMTP_PASSWORD config]) eqn:Hcred.
  - destruct (send_email_outcomes to_email subject html_content text_content
                env Hcred) as (env1 & delivered & k & lines & Hrun1 & Htrace & Hk & Hd).
    rewrite Hrun in Hrun1. injection Hrun1 as <- <-.
    destruct Hd as [-> ->]. rewrite Htrace. by rewrite app_nil_r.
  - unfold send_email in Hrun. rewrite Hcred in Hrun. discriminate.
Qed.
End TransportSessions.

(** ** Campaign Dispatcher: what a send hands to the relay *)

Section DispatchTrace.
Context `{Deployment}.

(** One call of the transport hands over its message once or not at all,
    and once whenever it reports success. *)
Lemma send_email_mails to_email subject html_content text_content env :
  exists (env' : Env) (delivered : bool) (evs : list Event),
    send_email to_email subject html_content text_content env
    = (env', Ok delivered)
    /\ trace env' = (trace env ++ evs)%list
    /\ (sent_messages evs = []
        \/ sent_messages evs
           = [built_message to_email subject html_content text_content]).
Proof.
  destruct (py_all [SMTP_USERNAME config; SMTP_PASSWORD config]) eqn:Hcred.
  - destruct (send_email_outcomes to_email subject html_content text_content
                env Hcred) as (env' & delivered & k & lines & Hrun & Htrace & Hk & Hd).
    exists env', delivered. eexists. split; [exact Hrun|].
    split; [exact Htrace|].
    assert (sent_messages lines = []) as Hlines.
    { destruct delivered; [by destruct Hd as [_ ->]|by destruct Hd as [e ->]]. }
    rewrite sent_messages_app, Hlines, app_nil_r.
    destruct k as [|[|[|[|[|k]]]]]; cbn; try lia; auto.
  - unfold send_email. rewrite Hcred. cbn [negb].
    eexists _, _, _. split; [reflexivity|]. split; [reflexivity|]. by left.
Qed.

(** In the application the [try] block is one call of the transport, for
    the letter carrying the token just issued for the subscriber. *)
Lemma attempt_application campaign subscriber env :
  @attempt _ application campaign subscriber env
  = send_email (Subscriber.email subscriber) (Campaign.subject campaign)
      (get_email_template (Campaign.template_type campaign)
         (Campaign.content campaign)
         (wire (issue "unsubscribe" (clock (world env))
                  (Subscriber.email subscriber))))
      None env.
Proof. reflexivity. Qed.

Lemma send_all_mails campaign subs : forall t env,
  exists (env' : Env) (t' : Tally) (evs : list Event),
    @send_all _ application campaign subs t env = (env', Ok t')
    /\ trace env' = (trace env ++ evs)%list
    /\ map msg_to (sent_messages evs) `sublist_of` map Subscriber.email subs
    /\ Forall (fun m => exists now, m = letter campaign (msg_to m) now)
         (sent_messages evs).
Proof.
  induction subs as [|s rest IH]; intros t env.
  - exists env, t, []. cbn. rewrite app_nil_r. by repeat split.
  - cbn [send_all]. unfold bind at 1. rewrite send_one_completes.
    unfold iteration. rewrite attempt_application.
    destruct (send_email_mails (Subscriber.email s) (Campaign.subject campaign)
                (get_email_template (Campaign.template_type campaign)
                   (Campaign.content campaign)
                   (wire (issue "unsubscribe" (clock (world env))
                            (Subscriber.email s))))
                None env) as (env1 & delivered & evs1 & Hrun1 & Htrace1 & Hmail1).
    rewrite Hrun1. cbn [fst snd].
    match goal with |- context [send_all campaign rest ?t1 env1] =>
      destruct (IH t1 env1) as (env' & t' & evs & Hrun & Htrace & Hsub & Hall)
    end.
    exists env', t', (evs1 ++ evs)%list. split; [exact Hrun|].
    split; [by rewrite Htrace, Htrace1, app_assoc|].
    rewrite sent_messages_app, map_app.
    destruct Hmail1 as [-> | ->]; cbn [app map].
    + split; [by apply sublist_cons|exact Hall].
    + split; [by apply sublist_skip|].
      apply Forall_cons. split; [|exact Hall].
      by exists (clock (world env)).
Qed.

(** X3. [send_campaign] always returns, and whatever it handed to the
    relay went to resolved recipients only: the addressees of the messages
    are a sub-sequence of the recipient list, so each row is written to at
    most once and in table order, and every message is the campaign's
    letter carrying an unsubscribe token issued for its own addressee.  For
    an unknown campaign nothing is sent. *)
Theorem send_campaign_mails_recipients_only (campaign_id : Z) (db : DB)
    (env : Env) :
  exists (env' : Env) (db' : DB) (response : Response) (evs : list Event),
    send_campaign campaign_id db env = (env', Ok (db', response))
    /\ trace env' = (trace env ++ evs)%list
    /\ match campaigns db !! campaign_id with
       | None => evs = []
       | Some campaign =>
           map msg_to (sent_messages evs)
             `sublist_of` map Subscriber.email (resolve_recipients campaign db)
           /\ Forall (fun m => exists now, m = letter campaign (msg_to m) now)
                (sent_messages evs)
       end.
Proof.
  unfold send_campaign, send_campaign_with.
  destruct (campaigns db !! campaign_id) as [campaign|].
  2:{ exists env, db, Abort404, []. by rewrite app_nil_r. }
  case_bool_decide.
  { eexists env, db, _, []. rewrite app_nil_r.
    repeat split; [apply sublist_nil_l|constructor]. }
  cbv zeta. destruct (resolve_recipients campaign db) as [|s0 rest] eqn:Hsubs.
  { eexists env, db, _, []. rewrite app_nil_r.
    repeat split; constructor. }
  set (campaign1 := Campaign.with_total_recipients _ _).
  set (db1 := save_campaign campaign_id campaign1 db).
  destruct (send_all_mails campaign1 (s0 :: rest) (mkTally db1 0 0) env)
    as (env' & t' & evs & Hrun & Htrace & Hsub & Hall).
  unfold bind at 1. rewrite Hrun. unfold bind, utcnow, ret.
  eexists env', _, _, evs. split; [reflexivity|]. split; [exact Htrace|].
  split; [exact Hsub|exact Hall].
Qed.

Lemma send_all_unconfigured campaign subs :
  py_all [SMTP_USERNAME config; SMTP_PASSWORD config] = false ->
  forall t env,
    @send_all _ application campaign subs t env
    = (mkEnv (world env)
         (trace env
          ++ replicate (length subs) (Printed "SMTP credentials not configured")),
       Ok (mkTally (tally_db t) (sent_count t)
             (failed_count t + Z.of_nat (length subs)))).
Proof.
  intros Hcred. induction subs as [|s rest IH]; intros t env.
  - cbn. rewrite app_nil_r, Z.add_0_r. by destruct t, env.
  - cbn [send_all]. unfold bind at 1. rewrite send_one_completes.
    unfold iteration. rewrite attempt_application.
    unfold send_email at 1 2 3. rewrite Hcred. cbn [negb].
    unfold bind, print, emit, ret. cbn [fst snd world trace].
    rewrite IH. cbn [world trace tally_db sent_count failed_count length replicate].
    rewrite <- app_assoc. cbn [app]. do 3 f_equal. lia.
Qed.

(** X4. With no SMTP credentials configured a send still closes the
    campaign: over N recipients it answers 0 sent and N failed and marks
    the campaign ['sent'] with these counters, while no SMTP command is
    issued (the log only gains N printed lines), the world is untouched and
    no subscriber row changes. *)
Theorem send_campaign_without_credentials (campaign_id : Z) (db : DB)
    (env : Env) (campaign : Campaign.t) :
  SMTP_USERNAME config = EmptyString \/ SMTP_PASSWORD config = EmptyString ->
  campaigns db !! campaign_id = Some campaign ->
  Campaign.status campaign <> Some "sent" ->
  resolve_recipients campaign db <> [] ->
  let N := length (resolve_recipients campaign db) in
  exists (db' : DB) (message : string) (saved : Campaign.t),
    send_campaign campaign_id db env
    = (mkEnv (world env)
         (trace env ++ replicate N (Printed "SMTP credentials not configured")),
       Ok (db', Jsonify true message (Some (0, Z.of_nat N))))
    /\ subscribers db' = subscribers db
    /\ campaigns db' !! campaign_id = Some saved
    /\ Campaign.status saved = Some "sent"
    /\ Campaign.sent_count saved = Some 0
    /\ Campaign.failed_count saved = Some (Z.of_nat N).
Proof.
  intros Hempty Hget Hstatus Hsubs N.
  assert (py_all [SMTP_USERNAME config; SMTP_PASSWORD config] = false) as Hcred.
  { destruct (py_all _) eqn:Hall; [|done].
    apply py_all_credentials in Hall. tauto. }
  unfold send_campaign, send_campaign_with. rewrite Hget.
  rewrite bool_decide_eq_false_2 by done.
  cbv zeta. rewrite nonempty_branch by done.
  unfold bind at 1. rewrite (send_all_unconfigured _ _ Hcred).
  unfold bind, utcnow, ret.
  cbn [world trace tally_db sent_count failed_count].
  rewrite Z.add_0_l. fold N.
  eexists _, _, _. split; [reflexivity|].
  split; [reflexivity|]. split; [apply lookup_insert_eq|]. by cbn.
Qed.
End DispatchTrace.

(** ** Campaign Dispatcher: what a send leaves alone *)

Lemma NoDup_map_injective {A B} (f : A -> B) (l : list A) (x y : A) :
  NoDup (map f l) -> In x l -> In y l -> f x = f y -> x = y.
Proof.
  induction l as [|a l IH]; simpl; intros Hnd Hx Hy Hf; [done|].
  apply NoDup_cons in Hnd as [Ha Hnd].
  destruct Hx as [->|Hx], Hy as [->|Hy]; [done| | |by apply IH].
  - destruct Ha. apply list_elem_of_In. rewrite Hf. by apply in_map.
  - destruct Ha. apply list_elem_of_In. rewrite <- Hf. by apply in_map.
Qed.

Lemma stamp_keeps_rest (db0 cur : DB) (s : Subscriber.t) (v : option Z) :
  unique_ids db0 ->
  In s (subscribers db0) ->
  map unstamped (subscribers cur) = map unstamped (subscribers db0) ->
  map unstamped
    (subscribers (update_subscriber (Subscriber.with_last_campaign_sent v s) cur))
  = map unstamped (subscribers db0).
Proof.
  intros Hids Hs Hcur. rewrite <- Hcur.
  unfold update_subscriber; cbn [subscribers].
  rewrite map_map. apply map_ext_in. intros r Hr.
  destruct (Z.eqb_spec (Subscriber.id r)
              (Subscriber.id (Subscriber.with_last_campaign_sent v s)))
    as [Hid|Hid]; [|done].
  change (unstamped s = unstamped r).
  apply (in_map unstamped) in Hr. rewrite Hcur in Hr.
  apply in_map_iff in Hr as (r0 & Hr0 & Hin0).
  assert (r0 = s) as ->; [|done].
  apply (NoDup_map_injective Subscriber.id (subscribers db0)); [done..|].
  change (Subscriber.id (unstamped r0) = Subscriber.id s).
  rewrite Hr0. exact Hid.
Qed.

Section DispatchFrames.
Context `{Collaborators}.

Lemma send_all_keeps_rest (db0 : DB) campaign subs : forall t env env' t',
  unique_ids db0 ->
  (forall s, In s subs -> In s (subscribers db0)) ->
  map unstamped (subscribers (tally_db t)) = map unstamped (subscribers db0) ->
  send_all campaign subs t env = (env', Ok t') ->
  map unstamped (subscribers (tally_db t')) = map unstamped (subscribers db0).
Proof.
  induction subs as [|s rest IH]; intros t env env' t' Hids Hsubs Hcur Hrun.
  - cbn in Hrun. by injection Hrun as _ <-.
  - cbn [send_all] in Hrun. unfold bind at 1 in Hrun.
    rewrite send_one_completes in Hrun.
    eapply IH; [exact Hids| |..|exact Hrun].
    + intros s' Hs'. apply Hsubs. by right.
    + destruct (iteration campaign s env).2; cbn [tally_db]; [|exact Hcur].
      apply stamp_keeps_rest; [exact Hids| |exact Hcur].
      apply Hsubs. by left.
Qed.

(** X5. A send rewrites one campaign row and no other: every other
    campaign is as before, and the row sent keeps its name, subject,
    content, template, segment, creation time and open counter. *)
Theorem send_campaign_touches_one_campaign (campaign_id : Z) (db : DB)
    (env : Env) :
  exists (env' : Env) (db' : DB) (response : Response),
    send_campaign_with campaign_id db env = (env', Ok (db', response))
    /\ (forall k, k <> campaign_id -> campaigns db' !! k = campaigns db !! k)
    /\ (forall campaign,
           campaigns db !! campaign_id = Some campaign ->
           exists saved,
             campaigns db' !! campaign_id = Some saved
             /\ Campaign.name saved = Campaign.name campaign
             /\ Campaign.subject saved = Campaign.subject campaign
             /\ Campaign.content saved = Campaign.content campaign
             /\ Campaign.template_type saved = Campaign.template_type campaign
             /\ Campaign.target_segment saved = Campaign.target_segment campaign
             /\ Campaign.created_at saved = Campaign.created_at campaign
             /\ Campaign.opened_count saved = Campaign.opened_count campaign).
Proof.
  unfold send_campaign_with.
  destruct (campaigns db !! campaign_id) as [campaign|] eqn:Hget.
  2:{ exists env, db, Abort404. by repeat split. }
  case_bool_decide.
  { eexists env, db, _. split; [reflexivity|]. split; [done|].
    intros c [= <-]. by exists campaign. }
  cbv zeta. destruct (resolve_recipients campaign db) as [|s0 rest] eqn:Hsubs.
  { eexists env, db, _. split; [reflexivity|]. split; [done|].
    intros c [= <-]. by exists campaign. }
  set (campaign1 := Campaign.with_total_recipients _ _).
  set (db1 := save_campaign campaign_id campaign1 db).
  destruct (send_all_tallies campaign1 (s0 :: rest) (mkTally db1 0 0) env)
    as (env' & t' & Hrun & Hc & _).
  unfold bind at 1. rewrite Hrun. unfold bind, utcnow, ret.
  eexists env', _, _. split; [reflexivity|].
  cbn [save_campaign campaigns]. rewrite Hc. cbn [tally_db db1 save_campaign campaigns].
  split.
  - intros k Hk. by rewrite !lookup_insert_ne.
  - intros c [= <-]. eexists. split; [apply lookup_insert_eq|]. by cbn.
Qed.

(** X6. A send changes nothing of a subscriber but [last_campaign_sent]:
    with unique primary keys, the table after the send has the same rows in
    the same order once the delivery stamps are blanked, so no status,
    e-mail, name or other column moves and no row appears or disappears. *)
Theorem send_campaign_only_stamps (campaign_id : Z) (db : DB) (env : Env) :
  unique_ids db ->
  exists (env' : Env) (db' : DB) (response : Response),
    send_campaign_with campaign_id db env = (env', Ok (db', response))
    /\ map unstamped (subscribers db') = map unstamped (subscribers db).
Proof.
  intros Hids. unfold send_campaign_with.
  destruct (campaigns db !! campaign_id) as [campaign|] eqn:Hget.
  2:{ by exists env, db, Abort404. }
  case_bool_decide; [by eexists env, db, _|].
  cbv zeta. destruct (resolve_recipients campaign db) as [|s0 rest] eqn:Hsubs.
  { by eexists env, db, _. }
  set (campaign1 := Campaign.with_total_recipients _ _).
  set (db1 := save_campaign campaign_id campaign1 db).
  destruct (send_all_tallies campaign1 (s0 :: rest) (mkTally db1 0 0) env)
    as (env' & t' & Hrun & _).
  unfold bind at 1. rewrite Hrun. unfold bind, utcnow, ret.
  eexists env', _, _. split; [reflexivity|].
  cbn [save_campaign subscribers].
  apply (send_all_keeps_rest db campaign1 (s0 :: rest) (mkTally db1 0 0) env env');
    [exact Hids| |reflexivity|exact Hrun].
  intros s Hs. rewrite <- Hsubs in Hs. apply list_elem_of_In in Hs.
  apply list_elem_of_In. unfold resolve_recipients in Hs.
  by case_bool_decide; apply list_elem_of_filter in Hs as [_ ?].
Qed.
Lemma update_keeps_other (s r : Subscriber.t) (db : DB) :
  In r (subscribers db) ->
  Subscriber.id r <> Subscriber.id s ->
  In r (subscribers (update_subscriber s db)).
Proof.
  intros Hin Hid. unfold update_subscriber; cbn [subscribers].
  apply in_map_iff. exists r. split; [|exact Hin].
  by destruct (Z.eqb_spec (Subscriber.id r) (Subscriber.id s)).
Qed.

Lemma send_all_keeps_others campaign subs (r : Subscriber.t) :
  forall t env env' t',
    (forall s, In s subs -> Subscriber.id s <> Subscriber.id r) ->
    In r (subscribers (tally_db t)) ->
    send_all campaign subs t env = (env', Ok t') ->
    In r (subscribers (tally_db t')).
Proof.
  induction subs as [|s rest IH]; intros t env env' t' Hother Hin Hrun.
  - cbn in Hrun. by injection Hrun as _ <-.
  - cbn [send_all] in Hrun. unfold bind at 1 in Hrun.
    rewrite send_one_completes in Hrun.
    eapply IH; [| |exact Hrun].
    + intros s' Hs'. apply Hother. by right.
    + destruct (iteration campaign s env).2; cbn [tally_db]; [|exact Hin].
      apply update_keeps_other; [exact Hin|].
      intros Hid. apply (Hother s); [by left|].
      by rewrite Hid.
Qed.

(** X7. A subscriber who is not among the resolved recipients is not
    touched by a send: with unique primary keys, a row that the campaign's
    segment leaves out (bounced, unsubscribed, or inactive under the
    [active] segment) is in the table after the send exactly as it was,
    delivery stamp included. *)
Theorem send_campaign_spares_non_recipients (campaign_id : Z) (db : DB)
    (env env' : Env) (db' : DB) (response : Response) (campaign : Campaign.t)
    (r : Subscriber.t) :
  unique_ids db ->
  campaigns db !! campaign_id = Some campaign ->
  In r (subscribers db) ->
  ~ r ∈ resolve_recipients campaign db ->
  send_campaign_with campaign_id db env = (env', Ok (db', response)) ->
  In r (subscribers db').
Proof.
  intros Hids Hget Hin Hout Hrun. unfold send_campaign_with in Hrun.
  rewrite Hget in Hrun.
  case_bool_decide; [by injection Hrun as _ <- _|].
  cbv zeta in Hrun.
  destruct (resolve_recipients campaign db) as [|s0 rest] eqn:Hsubs;
    [by injection Hrun as _ <- _|].
  set (campaign1 := Campaign.with_total_recipients _ _) in Hrun.
  set (db1 := save_campaign campaign_id campaign1 db) in Hrun.
  destruct (send_all_tallies campaign1 (s0 :: rest) (mkTally db1 0 0) env)
    as (env1 & t1 & Hloop & _).
  unfold bind at 1 in Hrun. rewrite Hloop in Hrun.
  unfold bind, utcnow, ret in Hrun. injection Hrun as _ <- _.
  cbn [save_campaign subscribers].
  apply (send_all_keeps_others campaign1 (s0 :: rest) r (mkTally db1 0 0) env env1);
    [|exact Hin|exact Hloop].
  intros s Hs Hid. apply Hout.
  assert (s ∈ subscribers db) as Hsin.
  { rewrite <- Hsubs in Hs. apply list_elem_of_In in Hs.
    unfold resolve_recipients in Hs.
    by case_bool_decide; apply list_elem_of_filter in Hs as [_ ?]. }
  assert (s = r) as <-; [|by apply list_elem_of_In].
  apply (NoDup_map_injective Subscriber.id (subscribers db));
    [exact Hids|by apply list_elem_of_In|exact Hin|exact Hid].
Qed.
End DispatchFrames.

(** ** Campaign creation and deletion *)

Lemma below_next_key (k x : Z) (xs : list Z) :
  In k (x :: xs) -> k < 1 + foldr Z.max x xs.
Proof.
  assert (x <= foldr Z.max x xs /\ forall j, In j xs -> j <= foldr Z.max x xs)
    as [Hx Hxs].
  { induction xs as [|y ys [IHx IHys]]; simpl; [split; [lia|tauto]|].
    split; [lia|]. intros j [->|Hj]; [lia|]. specialize (IHys j Hj). lia. }
  intros [->|Hin]; [lia|]. specialize (Hxs k Hin). lia.
Qed.

Lemma next_campaign_id_fresh (table : gmap Z Campaign.t) :
  table !! next_campaign_id table = None.
Proof.
  destruct (table !! next_campaign_id table) as [c|] eqn:Hget; [|done].
  apply elem_of_map_to_list in Hget.
  apply (list_elem_of_fmap_2 fst) in Hget. cbn [fst] in Hget.
  unfold next_campaign_id in Hget at 1 |- *.
  destruct ((map_to_list table).*1) as [|x xs]; [by apply elem_of_nil in Hget|].
  apply list_elem_of_In, below_next_key in Hget. lia.
Qed.

Section CampaignLifecycle.
Context `{Deployment}.

(** X8. Deleting a campaign that is not ['sent'] removes that row and
    nothing else: subscribers and all other campaigns stay, and from then
    on both sending and deleting under that key answer 404 without any
    effect. *)
Theorem delete_campaign_removes (campaign_id : Z) (db : DB) (env env2 : Env)
    (campaign : Campaign.t) :
  campaigns db !! campaign_id = Some campaign ->
  Campaign.status campaign <> Some "sent" ->
  exists db',
    delete_campaign campaign_id db env
    = (env, Ok (db', FlashRedirect "Campaign deleted successfully." "success"
                       url_admin_campaigns))
    /\ subscribers db' = subscribers db
    /\ campaigns db' !! campaign_id = None
    /\ (forall k, k <> campaign_id -> campaigns db' !! k = campaigns db !! k)
    /\ send_campaign campaign_id db' env2 = (env2, Ok (db', Abort404))
    /\ delete_campaign campaign_id db' env2 = (env2, Ok (db', Abort404)).
Proof.
  intros Hget Hstatus. eexists. split.
  { unfold delete_campaign. rewrite Hget.
    by rewrite bool_decide_eq_false_2. }
  cbn [subscribers campaigns].
  split; [reflexivity|]. split; [apply lookup_delete_eq|].
  split; [intros k Hk; by apply lookup_delete_ne|].
  unfold send_campaign, send_campaign_with, delete_campaign.
  cbn [campaigns]. by rewrite lookup_delete_eq.
Qed.

(** X9. A valid campaign form files a new row under a key no campaign
    had: status ['draft'], the five submitted fields, counters 0, no
    [sent_at]; subscribers and the other campaigns are untouched, and
    deleting the new campaign gives back the tables as they were. *)
Theorem new_campaign_files_draft (form : CampaignForm) (db : DB)
    (env env2 : Env) :
  campaign_form_valid form = true ->
  let key := next_campaign_id (campaigns db) in
  let draft :=
    Campaign.mk (form_name form) (form_subject form) (form_content form)
      (Some (form_template_type form)) (Some "draft")
      (Some (form_target_segment form)) (Some (clock (world env))) None
      (Some 0) (Some 0) (Some 0) (Some 0) in
  campaigns db !! key = None
  /\ exists db',
       new_campaign form db env
       = (env, Ok (db', Respond (FlashRedirect "Campaign created successfully!"
                                   "success" url_admin_campaigns)))
       /\ campaigns db' !! key = Some draft
       /\ (forall k, k <> key -> campaigns db' !! k = campaigns db !! k)
       /\ subscribers db' = subscribers db
       /\ delete_campaign key db' env2
          = (env2, Ok (db, FlashRedirect "Campaign deleted successfully."
                             "success" url_admin_campaigns)).
Proof.
  intros Hvalid key draft.
  pose proof (next_campaign_id_fresh (campaigns db)) as Hfresh. fold key in Hfresh.
  split; [exact Hfresh|]. eexists. split.
  { unfold new_campaign. rewrite Hvalid. reflexivity. }
  fold key. cbn [save_campaign campaigns subscribers].
  split; [apply lookup_insert_eq|].
  split; [intros k Hk; by apply lookup_insert_ne|].
  split; [reflexivity|].
  unfold delete_campaign, save_campaign. cbn [campaigns subscribers].
  rewrite lookup_insert_eq, bool_decide_eq_false_2 by done.
  rewrite delete_insert_eq, delete_id by done. by destruct db.
Qed.
End CampaignLifecycle.

(** ** Subscriber Registry: subscribing, unsubscribing and the public count *)

Lemma update_twice (s : Subscriber.t) (db : DB) :
  update_subscriber s (update_subscriber s db) = update_subscriber s db.
Proof.
  unfold update_subscriber; cbn [subscribers campaigns]. f_equal.
  rewrite map_map. apply map_ext. intros r.
  destruct (Z.eqb_spec (Subscriber.id r) (Subscriber.id s)) as [Hr|Hr].
  - by rewrite Z.eqb_refl.
  - by destruct (Z.eqb_spec (Subscriber.id r) (Subscriber.id s)).
Qed.

Lemma update_keeps_ids (s : Subscriber.t) (db : DB) :
  map Subscriber.id (subscribers (update_subscriber s db))
  = map Subscriber.id (subscribers db).
Proof.
  unfold update_subscriber; cbn [subscribers].
  rewrite map_map. apply map_ext. intros r.
  by destruct (Z.eqb_spec (Subscriber.id r) (Subscriber.id s)).
Qed.

(** With unique keys, flushing a row rewrites exactly one place. *)
Lemma update_one_place (s r : Subscriber.t) (db : DB) :
  unique_ids db ->
  In r (subscribers db) ->
  Subscriber.id s = Subscriber.id r ->
  exists before after,
    subscribers db = (before ++ r :: after)%list
    /\ subscribers (update_subscriber s db) = (before ++ s :: after)%list.
Proof.
  intros Hids Hin Hid. unfold unique_ids in Hids.
  apply in_split in Hin as (before & after & Hsplit).
  exists before, after. split; [exact Hsplit|].
  unfold update_subscriber; cbn [subscribers].
  rewrite Hsplit in Hids |- *. rewrite map_app in Hids. cbn [map] in Hids.
  apply NoDup_app in Hids as (_ & Hbefore & Hafter).
  apply NoDup_cons in Hafter as [Hafter _].
  rewrite map_app. cbn [map]. rewrite Hid, Z.eqb_refl. f_equal; [|f_equal].
  - rewrite <- (map_id before) at 2. apply map_ext_in. intros x Hx.
    destruct (Z.eqb_spec (Subscriber.id x) (Subscriber.id r)) as [Hxr|]; [|done].
    destruct (Hbefore (Subscriber.id x)).
    + apply list_elem_of_In. by apply in_map.
    + rewrite Hxr. by left.
  - rewrite <- (map_id after) at 2. apply map_ext_in. intros x Hx.
    destruct (Z.eqb_spec (Subscriber.id x) (Subscriber.id r)) as [Hxr|]; [|done].
    destruct Hafter. rewrite <- Hxr. apply list_elem_of_In. by apply in_map.
Qed.

Lemma active_count_app (l1 l2 : list Subscriber.t) :
  length (filter (fun s => Subscriber.status s = Some "active") (l1 ++ l2)%list)
  = (length (filter (fun s => Subscriber.status s = Some "active") l1)
     + length (filter (fun s => Subscriber.status s = Some "active") l2))%nat.
Proof. by rewrite filter_app, length_app. Qed.

Lemma active_count_cons (r : Subscriber.t) (l : list Subscriber.t) :
  length (filter (fun s => Subscriber.status s = Some "active") (r :: l))
  = ((if bool_decide (Subscriber.status r = Some "active") then 1 else 0)
     + length (filter (fun s => Subscriber.status s = Some "active") l))%nat.
Proof. rewrite filter_cons. by case_bool_decide; case_decide. Qed.

Section RegistryMore.
Context `{Deployment}.

(** X10. [subscribe] never fails and touches neither the environment nor
    the campaigns; the keys of the subscriber table stay in place, with at
    most one new key at the end; and when the address is empty once
    stripped, or the validator rejects it, the tables are returned as they
    were with the "valid email" answer. *)
Theorem subscribe_frame (req : SubscribeRequest) (db : DB) (env : Env) :
  let email := strip (default EmptyString (form req !! "email")) in
  exists (db' : DB) (response : Response),
    subscribe req db env = (env, Ok (db', response))
    /\ campaigns db' = campaigns db
    /\ (map Subscriber.id (subscribers db') = map Subscriber.id (subscribers db)
        \/ map Subscriber.id (subscribers db')
           = (map Subscriber.id (subscribers db) ++ [next_id (subscribers db)])%list)
    /\ (truthy email = false \/ validate_email (world env) email = false ->
        db' = db
        /\ response = answer req false "Please provide a valid email address."
                        "error").
Proof.
  intros email.
  destruct (truthy email) eqn:Htruthy;
    [destruct (validate_email (world env) email) eqn:Hvalid|].
  - rewrite subscribe_valid by done. fold email.
    destruct (filter_by_email email db) as [existing|].
    + case_bool_decide; eexists _, _; (split; [reflexivity|]);
        (split; [reflexivity|]); (split; [left|intros [?|?]; done]);
        [apply update_keeps_ids|reflexivity].
    + eexists _, _. split; [reflexivity|]. split; [reflexivity|].
      split; [right|intros [?|?]; done].
      unfold add_subscriber; cbn [subscribers]. by rewrite map_app.
  - rewrite subscribe_invalid by (by right).
    eexists _, _. split; [reflexivity|]. by repeat split; try left.
  - rewrite subscribe_invalid by (by left).
    eexists _, _. split; [reflexivity|]. by repeat split; try left.
Qed.

(** X11. A valid address without a row is appended as a new active
    subscriber: the row carries a key no row had, the stripped address,
    name and insurance interest, no phone, the time of the request and no
    delivery stamp; it is the row found under the address afterwards, the
    rows before it are unchanged and the public count goes up by one. *)
Theorem subscribe_new_row (req : SubscribeRequest) (db : DB) (env : Env) :
  let email := strip (default EmptyString (form req !! "email")) in
  let name := strip (default EmptyString (form req !! "name")) in
  let insurance_type := strip (default EmptyString (form req !! "insurance_type")) in
  truthy email = true ->
  validate_email (world env) email = true ->
  filter_by_email email db = None ->
  let row := Subscriber.mk (next_id (subscribers db)) email (Some name) None
               (Some insurance_type) (Some "active")
               (Some (clock (world env))) None in
  exists db',
    subscribe req db env
    = (env, Ok (db', answer req true
                       "Thank you for subscribing! You will receive our latest updates."
                       "success"))
    /\ subscribers db' = (subscribers db ++ [row])%list
    /\ filter_by_email email db' = Some row
    /\ ~ In (Subscriber.id row) (map Subscriber.id (subscribers db))
    /\ subscribers_count db' = subscribers_count db + 1.
Proof.
  intros email name insurance_type Htruthy Hvalid Hnone row.
  pose proof (subscribe_valid req db env Htruthy Hvalid) as Hrun.
  cbv zeta in Hrun. fold email name insurance_type in Hrun.
  rewrite Hnone in Hrun. fold row in Hrun.
  eexists. split; [exact Hrun|].
  unfold add_subscriber; cbn [subscribers]. split; [reflexivity|].
  split; [|split].
  - unfold filter_by_email; cbn [subscribers].
    apply find_app_fresh; [exact Hnone|apply String.eqb_refl].
  - intros Hin. apply in_map_iff in Hin as (r & Hr & Hin).
    pose proof (next_id_above _ _ Hin) as Hlt.
    rewrite Hr in Hlt. cbn in Hlt. lia.
  - unfold subscribers_count; cbn [subscribers].
    rewrite active_count_app, active_count_cons.
    rewrite bool_decide_eq_true_2 by done. cbn. lia.
Qed.

Lemma loads_valid token t email env :
  unwire token = Some t ->
  verify "unsubscribe" UNSUBSCRIBE_MAX_AGE (clock (world env)) t = inr email ->
  serializer_loads token "unsubscribe" UNSUBSCRIBE_MAX_AGE env = (env, Ok email).
Proof.
  intros Hparse Hverify. unfold serializer_loads, bind, utcnow.
  by rewrite Hparse, Hverify.
Qed.

Lemma unsubscribe_valid token t email db env :
  unwire token = Some t ->
  verify "unsubscribe" UNSUBSCRIBE_MAX_AGE (clock (world env)) t = inr email ->
  unsubscribe token db env
  = (env,
     Ok match filter_by_email email db with
        | Some subscriber =>
            (update_subscriber
               (Subscriber.with_status (Some "unsubscribed") subscriber) db,
             FlashRedirect "You have been successfully unsubscribed." "success"
               url_index)
        | None => (db, FlashRedirect "Subscriber not found." "error" url_index)
        end).
Proof.
  intros Hparse Hverify. unfold unsubscribe, try_except, bind at 1.
  rewrite (loads_valid _ _ _ _ Hparse Hverify).
  by destruct (filter_by_email email db).
Qed.

(** X12. [unsubscribe] changes nothing and answers with an error message
    when the token is not a token, fails verification (bad signature or
    older than a year), or verifies to an address that has no row. *)
Theorem unsubscribe_refusals (token : string) (db : DB) (env : Env) :
  (unwire token = None
   \/ (exists t err,
          unwire token = Some t
          /\ verify "unsubscribe" UNSUBSCRIBE_MAX_AGE (clock (world env)) t
             = inl err)
   \/ (exists t email,
          unwire token = Some t
          /\ verify "unsubscribe" UNSUBSCRIBE_MAX_AGE (clock (world env)) t
             = inr email
          /\ filter_by_email email db = None)) ->
  exists message,
    unsubscribe token db env = (env, Ok (db, FlashRedirect message "error" url_index))
    /\ (message = "Invalid or expired unsubscribe link."
        \/ message = "Subscriber not found.").
Proof.
  intros [Hnone | [(t & err & Hparse & Hverify) | (t & email & Hparse & Hverify & Hrow)]].
  - eexists. split; [|by left].
    unfold unsubscribe, try_except, bind at 1, serializer_loads, bind, utcnow.
    by rewrite Hnone.
  - eexists. split; [|by left].
    unfold unsubscribe, try_except, bind at 1, serializer_loads, bind, utcnow.
    rewrite Hparse, Hverify. by destruct err.
  - eexists. split; [|by right].
    rewrite (unsubscribe_valid _ _ _ _ _ Hparse Hverify). by rewrite Hrow.
Qed.

(** X13. A token that verifies to an address with a row marks that row
    ['unsubscribed'] and changes nothing else: with unique keys exactly
    one place of the table is rewritten, the row keeps every other column,
    the campaigns are untouched, and the public count drops by one if the
    row was active and stays otherwise. *)
Theorem unsubscribe_marks_row (token : string) (t : Token) (email : string)
    (db : DB) (env : Env) (r : Subscriber.t) :
  unique_ids db ->
  unwire token = Some t ->
  verify "unsubscribe" UNSUBSCRIBE_MAX_AGE (clock (world env)) t = inr email ->
  filter_by_email email db = Some r ->
  let row := Subscriber.with_status (Some "unsubscribed") r in
  exists db' before after,
    unsubscribe token db env
    = (env, Ok (db', FlashRedirect "You have been successfully unsubscribed."
                       "success" url_index))
    /\ subscribers db = (before ++ r :: after)%list
    /\ subscribers db' = (before ++ row :: after)%list
    /\ campaigns db' = campaigns db
    /\ filter_by_email email db' = Some row
    /\ subscribers_count db'
       = subscribers_count db
         - (if bool_decide (Subscriber.status r = Some "active") then 1 else 0).
Proof.
  intros Hids Hparse Hverify Hfound row.
  pose proof (find_found _ _ _ Hfound) as [Hin Hemail].
  apply list_elem_of_In in Hin.
  destruct (update_one_place row r db Hids Hin eq_refl)
    as (before & after & Hsplit & Hsplit').
  eexists _, before, after. split.
  { rewrite (unsubscribe_valid _ _ _ _ _ Hparse Hverify). by rewrite Hfound. }
  split; [exact Hsplit|]. split; [exact Hsplit'|]. split; [reflexivity|].
  split.
  - unfold filter_by_email, update_subscriber; cbn [subscribers].
    by apply (find_after_update email _ r).
  - unfold subscribers_count. fold row. rewrite Hsplit', Hsplit.
    rewrite !active_count_app, !active_count_cons.
    rewrite (bool_decide_eq_false_2 (Subscriber.status row = _)) by done.
    case_bool_decide; lia.
Qed.

End RegistryMore.


Lemma unique_email_elsewhere (before after : list Subscriber.t)
    (r s : Subscriber.t) :
  NoDup (map Subscriber.email (before ++ r :: after)%list) ->
  In s (before ++ after)%list ->
  Subscriber.email s <> Subscriber.email r.
Proof.
  rewrite map_app. cbn [map]. intros Hnd Hin Heq.
  apply NoDup_app in Hnd as (_ & Hbefore & Hafter).
  apply NoDup_cons in Hafter as [Hafter _].
  apply in_app_or in Hin as [Hin|Hin].
  - destruct (Hbefore (Subscriber.email s)).
    + apply list_elem_of_In. by apply in_map.
    + rewrite Heq. by left.
  - destruct Hafter. rewrite <- Heq. apply list_elem_of_In. by apply in_map.
Qed.

Section RegistryComposition.
Context `{Deployment}.

(** X15. Unsubscribing takes an address off every mailing: with unique
    keys and unique e-mails, after a token for the address has been
    accepted no campaign, whatever its segment, resolves a recipient with
    that address. *)
Theorem unsubscribed_never_recipient (token : string) (t : Token)
    (email : string) (db : DB) (env : Env) (r : Subscriber.t) :
  unique_ids db ->
  unique_up_to (fun e => e) db ->
  unwire token = Some t ->
  verify "unsubscribe" UNSUBSCRIBE_MAX_AGE (clock (world env)) t = inr email ->
  filter_by_email email db = Some r ->
  exists (db' : DB) (response : Response),
    unsubscribe token db env = (env, Ok (db', response))
    /\ forall (campaign : Campaign.t) (s : Subscriber.t),
         s ∈ resolve_recipients campaign db' -> Subscriber.email s <> email.
Proof.
  intros Hids Hemails Hparse Hverify Hfound.
  pose proof (find_found _ _ _ Hfound) as [Hin Hemail].
  apply list_elem_of_In in Hin.
  destruct (update_one_place (Subscriber.with_status (Some "unsubscribed") r)
              r db Hids Hin eq_refl) as (before & after & Hsplit & Hsplit').
  eexists _, _. split.
  { rewrite (unsubscribe_valid _ _ _ _ _ Hparse Hverify). by rewrite Hfound. }
  intros campaign s Hs.
  assert (s ∈ (before ++ Subscriber.with_status (Some "unsubscribed") r :: after)%list
          /\ Subscriber.status s <> Some "unsubscribed") as [Hrow Hstatus].
  { rewrite <- Hsplit'. unfold resolve_recipients in Hs.
    case_bool_decide; apply list_elem_of_filter in Hs as [Hst Hs];
      (split; [exact Hs|]).
    - by rewrite Hst.
    - apply elem_of_cons in Hst as [-> | ->%list_elem_of_singleton]; done. }
  rewrite <- Hemail.
  apply (unique_email_elsewhere before after).
  - rewrite <- Hsplit. by apply exact_unique_NoDup.
  - apply elem_of_app in Hrow as [Hrow|Hrow];
      [apply in_or_app; left; by apply list_elem_of_In|].
    apply elem_of_cons in Hrow as [-> | Hrow]; [done|].
    apply in_or_app; right; by apply list_elem_of_In.
Qed.

(** X16. Unsubscribing and subscribing again brings the same row back: the
    second call answers "Welcome back! Your subscription has been
    reactivated." (as JSON with [success] true to an XMLHttpRequest, else
    flashed with category [success]), and the row found under the address
    is active, has the key, phone, insurance interest and timestamps it had
    before, and the name submitted (the old one when none is submitted);
    no row is added. *)
Theorem unsubscribe_then_subscribe (token : string) (t : Token)
    (req : SubscribeRequest) (db : DB) (env1 env2 : Env) (r : Subscriber.t) :
  let email := strip (default EmptyString (form req !! "email")) in
  let name := strip (default EmptyString (form req !! "name")) in
  truthy email = true ->
  validate_email (world env2) email = true ->
  unwire token = Some t ->
  verify "unsubscribe" UNSUBSCRIBE_MAX_AGE (clock (world env1)) t = inr email ->
  filter_by_email email db = Some r ->
  exists (db1 db2 : DB) (row : Subscriber.t),
    unsubscribe token db env1
    = (env1, Ok (db1, FlashRedirect "You have been successfully unsubscribed."
                        "success" url_index))
    /\ subscribe req db1 env2
       = (env2,
          Ok (db2,
              if bool_decide (x_requested_with req = Some "XMLHttpRequest")
              then Jsonify true
                     "Welcome back! Your subscription has been reactivated." None
              else FlashRedirect
                     "Welcome back! Your subscription has been reactivated."
                     "success"
                     match referrer req with
                     | Some (String a back) => String a back
                     | _ => "/"
                     end))
    /\ filter_by_email email db2 = Some row
    /\ map Subscriber.id (subscribers db2) = map Subscriber.id (subscribers db)
    /\ row = Subscriber.with_name
               (if truthy name then Some name else Subscriber.name r)
               (Subscriber.with_status (Some "active") r).
Proof.
  intros email name Htruthy Hvalid Hparse Hverify Hfound.
  pose proof (find_found _ _ _ Hfound) as [_ Hemail].
  set (gone := Subscriber.with_status (Some "unsubscribed") r).
  assert (filter_by_email email (update_subscriber gone db) = Some gone) as Hgone.
  { unfold filter_by_email, update_subscriber; cbn [subscribers].
    by apply (find_after_update email _ r). }
  eexists _, _, _. split.
  { rewrite (unsubscribe_valid _ _ _ _ _ Hparse Hverify). by rewrite Hfound. }
  fold gone. split.
  { pose proof (subscribe_valid req (update_subscriber gone db) env2 Htruthy Hvalid)
      as Hrun.
    cbv zeta in Hrun. fold email name in Hrun.
    rewrite Hgone, bool_decide_eq_true_2 in Hrun by done.
    by rewrite <- answer_spelled. }
  split; [|split; [|reflexivity]].
  - unfold filter_by_email, update_subscriber at 1; cbn [subscribers].
    by apply (find_after_update email _ gone).
  - by rewrite !update_keeps_ids.
Qed.

(** X17. Following an unsubscribe link twice is harmless: the second call
    succeeds again and returns the tables exactly as the first call left
    them. *)
Theorem unsubscribe_twice (token : string) (t : Token) (email : string)
    (db : DB) (env1 env2 : Env) (r : Subscriber.t) :
  unwire token = Some t ->
  verify "unsubscribe" UNSUBSCRIBE_MAX_AGE (clock (world env1)) t = inr email ->
  verify "unsubscribe" UNSUBSCRIBE_MAX_AGE (clock (world env2)) t = inr email ->
  filter_by_email email db = Some r ->
  exists db1,
    unsubscribe token db env1
    = (env1, Ok (db1, FlashRedirect "You have been successfully unsubscribed."
                        "success" url_index))
    /\ unsubscribe token db1 env2
       = (env2, Ok (db1, FlashRedirect "You have been successfully unsubscribed."
                           "success" url_index)).
Proof.
  intros Hparse Hverify1 Hverify2 Hfound.
  pose proof (find_found _ _ _ Hfound) as [_ Hemail].
  set (gone := Subscriber.with_status (Some "unsubscribed") r).
  assert (filter_by_email email (update_subscriber gone db) = Some gone) as Hgone.
  { unfold filter_by_email, update_subscriber; cbn [subscribers].
    by apply (find_after_update email _ r). }
  eexists. split.
  { rewrite (unsubscribe_valid _ _ _ _ _ Hparse Hverify1). by rewrite Hfound. }
  fold gone. rewrite (unsubscribe_valid _ _ _ _ _ Hparse Hverify2), Hgone.
  change (Subscriber.with_status (Some "unsubscribed") gone) with gone.
  by rewrite update_twice.
Qed.
End RegistryComposition.

(** ** The admin area: sessions, login and the default account *)

Section AdminGuard.
Context `{Deployment}.

(** X18. Without ['admin_id'] in the session the guarded admin routes do
    nothing: sending, deleting, creating and previewing a campaign all
    redirect to the login page with the tables and the environment
    untouched, so no mail goes out and no row is written. *)
Theorem admin_routes_need_session (session : gmap string SessionValue)
    (campaign_id : Z) (form : CampaignForm) (db : DB) (env : Env) :
  session !! "admin_id" = None ->
  admin_send_campaign session campaign_id db env = (env, Ok (db, please_login))
  /\ admin_delete_campaign session campaign_id db env = (env, Ok (db, please_login))
  /\ admin_new_campaign session form db env = (env, Ok (db, please_login))
  /\ admin_preview_campaign session campaign_id db env
     = (env, Ok (db, please_login)).
Proof.
  intros Hanon.
  unfold admin_send_campaign, admin_delete_campaign, admin_new_campaign,
    admin_preview_campaign, login_required.
  by rewrite bool_decide_eq_true_2.
Qed.

(** X19. Logging out closes the admin area: whatever the session held, the
    session [admin_logout] leaves carries no ['admin_id'], and the guarded
    routes refuse it without touching the tables or the environment. *)
Theorem logout_closes_admin_area (session : gmap string SessionValue)
    (campaign_id : Z) (form : CampaignForm) (db : DB) (env : Env) :
  let session' := (admin_logout session).1 in
  session' !! "admin_id" = None
  /\ admin_send_campaign session' campaign_id db env = (env, Ok (db, please_login))
  /\ admin_delete_campaign session' campaign_id db env
     = (env, Ok (db, please_login))
  /\ admin_new_campaign session' form db env = (env, Ok (db, please_login)).
Proof.
  cbn. unfold admin_send_campaign, admin_delete_campaign, admin_new_campaign,
    login_required.
  by rewrite lookup_empty, bool_decide_eq_true_2.
Qed.
End AdminGuard.

Section AdminLogin.
Context `{Bcrypt}.

(** X20. A login that does not succeed leaves the session and the admin
    table as they were, and an unknown user name gets the very same answer
    as a wrong password, so the form does not tell which names exist. *)
Theorem admin_login_failure_is_uniform (form : LoginForm)
    (session : gmap string SessionValue) (admins : list Admin.t) (env : Env) :
  session !! "admin_id" = None ->
  login_form_valid form = true ->
  (find_admin (login_username form) admins = None
   \/ exists admin,
        find_admin (login_username form) admins = Some admin
        /\ check_password_hash (Admin.password_hash admin) (login_password form)
           = Ok false) ->
  admin_login form session admins env
  = (env, Ok (session, admins,
              RenderTemplate "admin/login.html"
                [("Invalid username or password.", "error")])).
Proof.
  intros Hanon Hvalid Hwho. unfold admin_login.
  rewrite bool_decide_eq_true_2, Hvalid by done.
  destruct Hwho as [-> | (admin & -> & Hcheck)]; [reflexivity|].
  unfold bind, check_password. by rewrite Hcheck.
Qed.

(** X21. [admin_login] puts an ['admin_id'] into a session that had none
    only for an account that exists under the submitted name, whose
    password check passed and which is active; the id is that account's. *)
Theorem admin_login_grants_only_checked (form : LoginForm)
    (session session' : gmap string SessionValue)
    (admins admins' : list Admin.t) (env env' : Env) (view : View)
    (granted : SessionValue) :
  session !! "admin_id" = None ->
  admin_login form session admins env = (env', Ok (session', admins', view)) ->
  session' !! "admin_id" = Some granted ->
  exists admin,
    login_form_valid form = true
    /\ find_admin (login_username form) admins = Some admin
    /\ check_password_hash (Admin.password_hash admin) (login_password form)
       = Ok true
    /\ Admin.is_active admin = Some true
    /\ granted = SInt (Admin.id admin).
Proof.
  intros Hanon Hrun Hgranted. unfold admin_login in Hrun.
  rewrite bool_decide_eq_true_2 in Hrun by done.
  destruct (login_form_valid form);
    [|injection Hrun as _ <- _ _; congruence].
  destruct (find_admin (login_username form) admins) as [admin|];
    [|injection Hrun as _ <- _ _; congruence].
  unfold bind at 1, check_password in Hrun.
  destruct (check_password_hash _ _) as [[|]|e] eqn:Hcheck;
    [|injection Hrun as _ <- _ _; congruence|discriminate].
  destruct (Admin.is_active admin) as [[|]|] eqn:Hactive; cbn [default] in Hrun;
    [|injection Hrun as _ <- _ _; congruence..].
  unfold bind, utcnow, ret in Hrun. injection Hrun as _ <- _ _.
  rewrite lookup_insert_ne, lookup_insert_eq in Hgranted by done.
  injection Hgranted as <-. by exists admin.
Qed.


Lemma find_admin_app_fresh (admins : list Admin.t) (a : Admin.t) :
  find_admin (Admin.username a) admins = None ->
  find_admin (Admin.username a) (admins ++ [a]) = Some a.
Proof.
  intros Hnone. unfold find_admin in *.
  apply find_app_fresh; [exact Hnone|apply String.eqb_refl].
Qed.

(** X23. [init_db] is safe to run again: a run that returned has left an
    account called ['admin'], and running it again, in any environment,
    changes nothing.  An ['admin'] that existed is left exactly as it was
    (its password is not reset, nothing is printed); otherwise the accounts
    there were are kept and one active ['admin'] with a fresh hash of the
    default password is appended. *)
Theorem init_db_runs_once (admins admins' : list Admin.t) (env env' env2 : Env) :
  init_db admins env = (env', Ok admins') ->
  init_db admins' env2 = (env2, Ok admins')
  /\ (exists admin, find_admin "admin" admins' = Some admin)
  /\ (forall admin, find_admin "admin" admins = Some admin ->
                    admins' = admins /\ env' = env)
  /\ (admins' = admins
      \/ exists admin,
           admins' = (admins ++ [admin])%list
           /\ Admin.username admin = "admin"
           /\ Admin.password_hash admin
              = generate_password_hash (world env) "admin123"
           /\ Admin.is_active admin = Some true).
Proof.
  intros Hrun. unfold init_db at 1 in Hrun.
  destruct (find_admin "admin" admins) as [admin|] eqn:Hfound.
  - injection Hrun as <- <-.
    split; [unfold init_db; by rewrite Hfound|].
    split; [by exists admin|]. split; [done|]. by left.
  - unfold bind at 1, set_password in Hrun.
    destruct (existsb _ admins); [discriminate|].
    unfold bind, utcnow, print, emit, ret in Hrun.
    injection Hrun as _ <-.
    set (admin := Admin.mk _ _ _ _ _ _ _).
    pose proof (find_admin_app_fresh admins admin Hfound) as Hnew.
    change (Admin.username admin) with "admin" in Hnew.
    split; [unfold init_db; by rewrite Hnew|].
    split; [by exists admin|]. split; [done|].
    right. by exists admin.
Qed.
End AdminLogin.

(** ** Renderer and preview *)

(** X24. The campaign body is put into the document as it is, with no
    escaping, as the content of the [content] block: in each variant, and
    for a row without a template type, the document contains the opening
    tag of that block, the body unchanged, and the closing tag. *)
Theorem render_embeds_content (content unsubscribe_token : string) :
  let opening :=
    "<div class=" +:+ dq +:+ "content" +:+ dq +:+ ">" +:+ nl
      +:+ "                    " in
  let closing := nl +:+ "                </div>" in
  let block := opening +:+ content +:+ closing in
  occurs_in block (get_email_template (Some "default") content unsubscribe_token)
  /\ occurs_in block
       (get_email_template (Some "promotional") content unsubscribe_token)
  /\ occurs_in block
       (get_email_template (Some "newsletter") content unsubscribe_token)
  /\ occurs_in block (get_email_template None content unsubscribe_token).
Proof.
  intros opening closing block. subst block.
  rewrite template_null, template_default, template_promotional,
    template_newsletter.
  assert (forall head mid rest lead back,
             head = lead +:+ opening ->
             mid = closing +:+ back ->
             occurs_in (opening +:+ content +:+ closing)
               (head +:+ content +:+ mid +:+ rest)) as Hblock.
  { intros head mid rest lead back -> ->.
    exists lead, (back +:+ rest). by rewrite !append_assoc. }
  repeat split.
  - apply (Hblock _ _ _
             (substring 0 (String.length default_head - 42) default_head)
             (substring 23 (String.length default_mid - 23) default_mid));
      by vm_compute.
  - apply (Hblock _ _ _
             (substring 0 (String.length promotional_head - 42) promotional_head)
             (substring 23 (String.length promotional_mid - 23) promotional_mid));
      by vm_compute.
  - apply (Hblock _ _ _
             (substring 0 (String.length newsletter_head - 42) newsletter_head)
             (substring 23 (String.length newsletter_mid - 23) newsletter_mid));
      by vm_compute.
  - apply (Hblock _ _ _
             (substring 0 (String.length default_head - 42) default_head)
             (substring 23 (String.length default_mid - 23) default_mid));
      by vm_compute.
Qed.

Section PreviewFacts.
Context `{Deployment}.

(** X25. The preview shows what is mailed: for an existing campaign,
    whatever its status, [preview_campaign] returns the HTML part of the
    letter the send loop would hand over for the address
    [preview@example.com] at that moment, and leaves the environment as it
    was. *)
Theorem preview_is_the_letter (campaign_id : Z) (db : DB) (env : Env)
    (campaign : Campaign.t) :
  campaigns db !! campaign_id = Some campaign ->
  exists body,
    preview_campaign campaign_id db env = (env, Ok (Html body))
    /\ msg_parts (letter campaign "preview@example.com" (clock (world env)))
       = [("html", body)].
Proof.
  intros Hget. eexists. split.
  - unfold preview_campaign. rewrite Hget. reflexivity.
  - reflexivity.
Qed.
End PreviewFacts.

(** * The further properties at work on the small deployment *)

(** An outcome is known once its world, its log and its result are. *)
Lemma outcome_eq `{Deployment} {A} (p : Env * Res A) (w : World)
    (tr : list Event) (r : Res A) :
  world p.1 = w -> trace p.1 = tr -> p.2 = r -> p = (mkEnv w tr, r).
Proof. destruct p as [[w' tr'] r']. cbn. by intros -> -> ->. Qed.

Section MoreInstances.
Import Fixture.

Example refused_session :
  smtp_commands
    (trace (@send_email live "bob@gmail.com" "News" "<p>Hi</p>" None (at_time 0)).1)
  = @smtp_session live
      (mkMessage "News" "noreply@insurancepro.com" "bob@gmail.com"
         [("html", "<p>Hi</p>")]) 4.
Proof. by vm_compute. Qed.

Example mailed_on_db0 :
  map msg_to (sent_messages (trace (@send_campaign live 1 db0 (at_time 5000)).1))
  = ["alice@gmail.com"; "bob@gmail.com"; "dave@gmail.com"].
Proof. by vm_compute. Qed.

Example staff_after_init :
  (@init_db live vault staff (at_time 90)).2 = Ok staff
  /\ (@init_db live vault [Admin.mk 4 "ops" "admin@insurancepro.com" "1:x"
                             (Some true) None None] (at_time 90)).2
     = Raise "IntegrityError".
Proof. split; by vm_compute. Qed.

Lemma send_email_true_is_complete_witness :
  let session :=
    [Smtp (SmtpConnect "smtp.gmail.com" 587); Smtp SmtpStartTls;
     Smtp (SmtpLogin "mailer@gmail.com" "app-password");
     Smtp (SmtpSendMessage
             (mkMessage "News" "noreply@insurancepro.com" "alice@gmail.com"
                [("html", "<p>Hi</p>")]));
     Smtp SmtpQuit] in
  @send_email live "alice@gmail.com" "News" "<p>Hi</p>" None (at_time 0)
  = (@mkEnv live 5 session, Ok true)
  /\ trace (@mkEnv live 5 session) = (trace (@at_time configured 0) ++ session)%list.
Proof.
  intros session.
  assert (@send_email live "alice@gmail.com" "News" "<p>Hi</p>" None (at_time 0)
          = (@mkEnv live 5 session, Ok true)) as Hrun
    by (apply outcome_eq; by vm_compute).
  split; [exact Hrun|].
  exact (@send_email_true_is_complete live _ _ _ _ _ _ Hrun).
Defined.

Lemma send_campaign_without_credentials_witness :
  (SMTP_USERNAME (@config bare) = EmptyString
   \/ SMTP_PASSWORD (@config bare) = EmptyString)
  /\ campaigns db0 !! 1 = Some (draft "all")
  /\ Campaign.status (draft "all") <> Some "sent"
  /\ resolve_recipients (draft "all") db0 <> []
  /\ exists (db' : DB) (message : string) (saved : Campaign.t),
       @send_campaign bare 1 db0 (at_time 5000)
       = (@mkEnv bare 5000
            (replicate 3 (Printed "SMTP credentials not configured")),
          Ok (db', Jsonify true message (Some (0, 3))))
       /\ subscribers db' = subscribers db0
       /\ campaigns db' !! 1 = Some saved
       /\ Campaign.status saved = Some "sent"
       /\ Campaign.sent_count saved = Some 0
       /\ Campaign.failed_count saved = Some 3.
Proof.
  assert (SMTP_USERNAME (@config bare) = EmptyString
          \/ SMTP_PASSWORD (@config bare) = EmptyString) as Hcred by (by left).
  assert (campaigns db0 !! 1 = Some (draft "all")) as Hget by (by vm_compute).
  assert (Campaign.status (draft "all") <> Some "sent") as Hstatus by (by vm_compute).
  assert (resolve_recipients (draft "all") db0 <> []) as Hsubs by (by vm_compute).
  do 4 (split; [assumption|]).
  exact (@send_campaign_without_credentials bare 1 db0 (at_time 5000)
           (draft "all") Hcred Hget Hstatus Hsubs).
Defined.

Lemma send_campaign_only_stamps_witness :
  unique_ids db0
  /\ exists (env' : Env) (db' : DB) (response : Response),
       @send_campaign live 1 db0 (at_time 5000) = (env', Ok (db', response))
       /\ map unstamped (subscribers db') = map unstamped (subscribers db0).
Proof.
  assert (unique_ids db0) as Hids.
  { apply (bool_decide_unpack _). by vm_compute. }
  split; [exact Hids|].
  exact (@send_campaign_only_stamps live application 1 db0 (at_time 5000) Hids).
Defined.

Lemma delete_campaign_removes_witness :
  campaigns db0 !! 2 = Some (draft "active")
  /\ Campaign.status (draft "active") <> Some "sent"
  /\ exists db',
       @delete_campaign live 2 db0 (at_time 7000)
       = (at_time 7000,
          Ok (db', FlashRedirect "Campaign deleted successfully." "success"
                     url_admin_campaigns))
       /\ subscribers db' = subscribers db0
       /\ campaigns db' !! 2 = None
       /\ (forall k, k <> 2 -> campaigns db' !! k = campaigns db0 !! k)
       /\ @send_campaign live 2 db' (at_time 8000)
          = (at_time 8000, Ok (db', Abort404))
       /\ @delete_campaign live 2 db' (at_time 8000)
          = (at_time 8000, Ok (db', Abort404)).
Proof.
  assert (campaigns db0 !! 2 = Some (draft "active")) as Hget by (by vm_compute).
  assert (Campaign.status (draft "active") <> Some "sent") as Hstatus
    by (by vm_compute).
  do 2 (split; [assumption|]).
  exact (@delete_campaign_removes live 2 db0 (at_time 7000) (at_time 8000)
           (draft "active") Hget Hstatus).
Defined.

Lemma new_campaign_files_draft_witness :
  campaign_form_valid autumn = true
  /\ campaigns db0 !! next_campaign_id (campaigns db0) = None
  /\ exists db',
       @new_campaign live autumn db0 (at_time 7000)
       = (at_time 7000,
          Ok (db', Respond (FlashRedirect "Campaign created successfully!"
                              "success" url_admin_campaigns)))
       /\ campaigns db' !! next_campaign_id (campaigns db0)
          = Some (Campaign.mk "Autumn offer" "Cover for the cold months"
                    "<p>Hello again</p>" (Some "newsletter") (Some "draft")
                    (Some "active") (Some 7000) None (Some 0) (Some 0) (Some 0)
                    (Some 0))
       /\ (forall k, k <> next_campaign_id (campaigns db0) ->
                     campaigns db' !! k = campaigns db0 !! k)
       /\ subscribers db' = subscribers db0
       /\ @delete_campaign live (next_campaign_id (campaigns db0)) db'
            (at_time 8000)
          = (at_time 8000,
             Ok (db0, FlashRedirect "Campaign deleted successfully." "success"
                        url_admin_campaigns)).
Proof.
  split; [reflexivity|].
  exact (@new_campaign_files_draft live autumn db0 (at_time 7000) (at_time 8000)
           eq_refl).
Defined.

Lemma subscribe_new_row_witness :
  let req := request " frank@gmail.com " " Frank " "home" in
  let row := Subscriber.mk 6 "frank@gmail.com" (Some "Frank") None (Some "home")
               (Some "active") (Some 10) None in
  truthy "frank@gmail.com" = true
  /\ @validate_email live 10 "frank@gmail.com" = true
  /\ filter_by_email "frank@gmail.com" db0 = None
  /\ exists db',
       @subscribe live req db0 (at_time 10)
       = (at_time 10,
          Ok (db', answer req true
                     "Thank you for subscribing! You will receive our latest updates."
                     "success"))
       /\ subscribers db' = (subscribers db0 ++ [row])%list
       /\ filter_by_email "frank@gmail.com" db' = Some row
       /\ ~ In (Subscriber.id row) (map Subscriber.id (subscribers db0))
       /\ subscribers_count db' = subscribers_count db0 + 1.
Proof.
  intros req row.
  assert (filter_by_email "frank@gmail.com" db0 = None) as Hnone by (by vm_compute).
  do 2 (split; [reflexivity|]). split; [exact Hnone|].
  apply (@subscribe_new_row live req db0 (at_time 10)); by vm_compute.
Defined.

Lemma unsubscribe_refusals_witness :
  @unwire live "not-a-token" = None
  /\ exists message,
       @unsubscribe live "not-a-token" db0 (at_time 6000)
       = (at_time 6000, Ok (db0, FlashRedirect message "error" url_index))
       /\ (message = "Invalid or expired unsubscribe link."
           \/ message = "Subscriber not found.").
Proof.
  assert (@unwire live "not-a-token" = None) as Hnone by (by vm_compute).
  split; [exact Hnone|].
  exact (@unsubscribe_refusals live "not-a-token" db0 (at_time 6000)
           (or_introl Hnone)).
Defined.

Lemma unsubscribe_marks_row_witness :
  let token := "5000:423901:alice@gmail.com" in
  let row := Subscriber.with_status (Some "unsubscribed") alice in
  unique_ids db0
  /\ @unwire live token = Some alice_token
  /\ @verify live "unsubscribe" UNSUBSCRIBE_MAX_AGE 6000 alice_token
     = inr "alice@gmail.com"
  /\ filter_by_email "alice@gmail.com" db0 = Some alice
  /\ exists db' before after,
       @unsubscribe live token db0 (at_time 6000)
       = (at_time 6000,
          Ok (db', FlashRedirect "You have been successfully unsubscribed."
                     "success" url_index))
       /\ subscribers db0 = (before ++ alice :: after)%list
       /\ subscribers db' = (before ++ row :: after)%list
       /\ campaigns db' = campaigns db0
       /\ filter_by_email "alice@gmail.com" db' = Some row
       /\ subscribers_count db'
          = subscribers_count db0
            - (if bool_decide (Subscriber.status alice = Some "active")
               then 1 else 0).
Proof.
  intros token row.
  assert (unique_ids db0) as Hids.
  { apply (bool_decide_unpack _). by vm_compute. }
  assert (@unwire live token = Some alice_token) as Hparse by (by vm_compute).
  assert (@verify live "unsubscribe" UNSUBSCRIBE_MAX_AGE 6000 alice_token
          = inr "alice@gmail.com") as Hverify by (by vm_compute).
  assert (filter_by_email "alice@gmail.com" db0 = Some alice) as Hfound
    by (by vm_compute).
  do 4 (split; [assumption|]).
  exact (@unsubscribe_marks_row live token alice_token "alice@gmail.com" db0
           (at_time 6000) alice Hids Hparse Hverify Hfound).
Defined.


Lemma unsubscribed_never_recipient_witness :
  let token := "5000:423901:alice@gmail.com" in
  unique_ids db0
  /\ unique_up_to (fun e => e) db0
  /\ @unwire live token = Some alice_token
  /\ filter_by_email "alice@gmail.com" db0 = Some alice
  /\ exists (db' : DB) (response : Response),
       @unsubscribe live token db0 (at_time 6000)
       = (at_time 6000, Ok (db', response))
       /\ forall (campaign : Campaign.t) (s : Subscriber.t),
            s ∈ resolve_recipients campaign db' ->
            Subscriber.email s <> "alice@gmail.com".
Proof.
  intros token.
  assert (unique_ids db0) as Hids.
  { apply (bool_decide_unpack _). by vm_compute. }
  assert (unique_up_to (fun e => e) db0) as Hemails.
  { apply exact_unique_NoDup, (bool_decide_unpack _). by vm_compute. }
  assert (@unwire live token = Some alice_token) as Hparse by (by vm_compute).
  assert (@verify live "unsubscribe" UNSUBSCRIBE_MAX_AGE 6000 alice_token
          = inr "alice@gmail.com") as Hverify by (by vm_compute).
  assert (filter_by_email "alice@gmail.com" db0 = Some alice) as Hfound
    by (by vm_compute).
  do 4 (split; [assumption|]).
  exact (@unsubscribed_never_recipient live token alice_token "alice@gmail.com"
           db0 (at_time 6000) alice Hids Hemails Hparse Hverify Hfound).
Defined.

Lemma unsubscribe_then_subscribe_witness :
  let token := "5000:423901:alice@gmail.com" in
  let req := request "alice@gmail.com" "Alice B" "life" in
  @unwire live token = Some alice_token
  /\ filter_by_email "alice@gmail.com" db0 = Some alice
  /\ exists (db1 db2 : DB) (row : Subscriber.t),
       @unsubscribe live token db0 (at_time 6000)
       = (at_time 6000,
          Ok (db1, FlashRedirect "You have been successfully unsubscribed."
                     "success" url_index))
       /\ @subscribe live req db1 (at_time 7000)
          = (at_time 7000,
             Ok (db2, Jsonify true
                        "Welcome back! Your subscription has been reactivated."
                        None))
       /\ filter_by_email "alice@gmail.com" db2 = Some row
       /\ map Subscriber.id (subscribers db2) = map Subscriber.id (subscribers db0)
       /\ row = Subscriber.with_name (Some "Alice B")
                  (Subscriber.with_status (Some "active") alice).
Proof.
  intros token req.
  assert (@unwire live token = Some alice_token) as Hparse by (by vm_compute).
  assert (@verify live "unsubscribe" UNSUBSCRIBE_MAX_AGE 6000 alice_token
          = inr "alice@gmail.com") as Hverify by (by vm_compute).
  assert (filter_by_email "alice@gmail.com" db0 = Some alice) as Hfound
    by (by vm_compute).
  do 2 (split; [assumption|]).
  exact (@unsubscribe_then_subscribe live token alice_token req db0
           (at_time 6000) (at_time 7000) alice eq_refl eq_refl Hparse Hverify
           Hfound).
Defined.

Lemma unsubscribe_twice_witness :
  let token := "5000:423901:alice@gmail.com" in
  @unwire live token = Some alice_token
  /\ filter_by_email "alice@gmail.com" db0 = Some alice
  /\ exists db1,
       @unsubscribe live token db0 (at_time 6000)
       = (at_time 6000,
          Ok (db1, FlashRedirect "You have been successfully unsubscribed."
                     "success" url_index))
       /\ @unsubscribe live token db1 (at_time 6500)
          = (at_time 6500,
             Ok (db1, FlashRedirect "You have been successfully unsubscribed."
                        "success" url_index)).
Proof.
  intros token.
  assert (@unwire live token = Some alice_token) as Hparse by (by vm_compute).
  assert (@verify live "unsubscribe" UNSUBSCRIBE_MAX_AGE 6000 alice_token
          = inr "alice@gmail.com") as Hverify1 by (by vm_compute).
  assert (@verify live "unsubscribe" UNSUBSCRIBE_MAX_AGE 6500 alice_token
          = inr "alice@gmail.com") as Hverify2 by (by vm_compute).
  assert (filter_by_email "alice@gmail.com" db0 = Some alice) as Hfound
    by (by vm_compute).
  do 2 (split; [assumption|]).
  exact (@unsubscribe_twice live token alice_token "alice@gmail.com" db0
           (at_time 6000) (at_time 6500) alice Hparse Hverify1 Hverify2 Hfound).
Defined.

Lemma admin_routes_need_session_witness :
  anonymous !! "admin_id" = None
  /\ @admin_send_campaign live anonymous 1 db0 (at_time 5000)
     = (at_time 5000, Ok (db0, please_login))
  /\ @admin_delete_campaign live anonymous 1 db0 (at_time 5000)
     = (at_time 5000, Ok (db0, please_login))
  /\ @admin_new_campaign live anonymous autumn db0 (at_time 5000)
     = (at_time 5000, Ok (db0, please_login))
  /\ @admin_preview_campaign live anonymous 1 db0 (at_time 5000)
     = (at_time 5000, Ok (db0, please_login)).
Proof.
  assert (anonymous !! "admin_id" = None) as Hanon by apply lookup_empty.
  split; [exact Hanon|].
  exact (@admin_routes_need_session live anonymous 1 autumn db0 (at_time 5000)
           Hanon).
Defined.

Lemma admin_login_failure_is_uniform_witness :
  anonymous !! "admin_id" = None
  /\ find_admin "nobody" staff = None
  /\ find_admin "admin" staff = Some root
  /\ @check_password_hash live vault (Admin.password_hash root) "letmein" = Ok false
  /\ @admin_login live vault (credentials "nobody" "letmein") anonymous staff
       (at_time 100)
     = (at_time 100,
        Ok (anonymous, staff,
            RenderTemplate "admin/login.html"
              [("Invalid username or password.", "error")]))
  /\ @admin_login live vault (credentials "admin" "letmein") anonymous staff
       (at_time 100)
     = (at_time 100,
        Ok (anonymous, staff,
            RenderTemplate "admin/login.html"
              [("Invalid username or password.", "error")])).
Proof.
  assert (anonymous !! "admin_id" = None) as Hanon by apply lookup_empty.
  assert (find_admin "nobody" staff = None) as Hnobody by (by vm_compute).
  assert (find_admin "admin" staff = Some root) as Hroot by (by vm_compute).
  assert (@check_password_hash live vault (Admin.password_hash root) "letmein"
          = Ok false) as Hwrong by (by vm_compute).
  do 4 (split; [assumption|]). split.
  - exact (@admin_login_failure_is_uniform live vault (credentials "nobody" "letmein")
             anonymous staff (at_time 100) Hanon eq_refl (or_introl Hnobody)).
  - exact (@admin_login_failure_is_uniform live vault (credentials "admin" "letmein")
             anonymous staff (at_time 100) Hanon eq_refl
             (or_intror (ex_intro _ root (conj Hroot Hwrong)))).
Defined.


Lemma admin_login_grants_only_checked_witness :
  anonymous !! "admin_id" = None
  /\ @admin_login live vault (credentials "admin" "admin123") anonymous staff
       (at_time 100)
     = (at_time 100,
        Ok (signed_in, update_admin (Admin.with_last_login (Some 100) root) staff,
            Respond (FlashRedirect "Welcome back!" "success" url_admin_dashboard)))
  /\ signed_in !! "admin_id" = Some (SInt 1)
  /\ exists admin,
       login_form_valid (credentials "admin" "admin123") = true
       /\ find_admin "admin" staff = Some admin
       /\ @check_password_hash live vault (Admin.password_hash admin) "admin123"
          = Ok true
       /\ Admin.is_active admin = Some true
       /\ SInt 1 = SInt (Admin.id admin).
Proof.
  assert (anonymous !! "admin_id" = None) as Hanon by apply lookup_empty.
  assert (@admin_login live vault (credentials "admin" "admin123") anonymous staff
            (at_time 100)
          = (at_time 100,
             Ok (signed_in,
                 update_admin (Admin.with_last_login (Some 100) root) staff,
                 Respond (FlashRedirect "Welcome back!" "success"
                            url_admin_dashboard)))) as Hrun.
  { unfold admin_login. rewrite bool_decide_eq_true_2 by exact Hanon.
    reflexivity. }
  assert (signed_in !! "admin_id" = Some (SInt 1)) as Hgranted.
  { unfold signed_in. by rewrite lookup_insert_ne, lookup_insert_eq. }
  do 3 (split; [assumption|]).
  exact (@admin_login_grants_only_checked live vault _ _ _ _ _ _ _ _ _
           Hanon Hrun Hgranted).
Defined.

Lemma init_db_runs_once_witness :
  let fresh := Admin.mk 3 "admin" "admin@insurancepro.com" "90:admin123"
                 (Some true) None (Some 90) in
  let env' := @mkEnv live 90
                [Printed "Default admin created - username: admin, password: admin123"] in
  @init_db live vault [retired] (at_time 90) = (env', Ok [retired; fresh])
  /\ @init_db live vault [retired; fresh] (at_time 95)
     = (at_time 95, Ok [retired; fresh])
  /\ (exists admin, find_admin "admin" [retired; fresh] = Some admin).
Proof.
  intros fresh env'.
  assert (@init_db live vault [retired] (at_time 90) = (env', Ok [retired; fresh]))
    as Hrun by (apply outcome_eq; by vm_compute).
  split; [exact Hrun|].
  destruct (@init_db_runs_once live vault [retired] [retired; fresh] (at_time 90)
              env' (at_time 95) Hrun) as (Hagain & Hthere & _).
  by split.
Defined.

Lemma send_campaign_spares_non_recipients_witness :
  unique_ids db0
  /\ campaigns db0 !! 1 = Some (draft "all")
  /\ In erin (subscribers db0)
  /\ ~ erin ∈ resolve_recipients (draft "all") db0
  /\ In erin (subscribers (@db_after live (OpSendCampaign 1) (at_time 5000) db0)).
Proof.
  assert (unique_ids db0) as Hids.
  { apply (bool_decide_unpack _). by vm_compute. }
  assert (campaigns db0 !! 1 = Some (draft "all")) as Hget by (by vm_compute).
  assert (In erin (subscribers db0)) as Hin by (cbn; tauto).
  assert (~ erin ∈ resolve_recipients (draft "all") db0) as Hout.
  { assert (resolve_recipients (draft "all") db0 = [alice; bob; dave]) as ->
      by (by vm_compute).
    intros Hmem.
    repeat (apply elem_of_cons in Hmem as [Hmem|Hmem];
            [vm_compute in Hmem; discriminate|]).
    by apply elem_of_nil in Hmem. }
  do 4 (split; [assumption|]).
  unfold db_after. cbn [handle].
  destruct (@send_campaign live 1 db0 (at_time 5000)) as [env' [[db' response]|e]]
    eqn:Hrun; [|exact Hin].
  exact (@send_campaign_spares_non_recipients live application 1 db0 (at_time 5000)
           env' db' response (draft "all") erin Hids Hget Hin Hout Hrun).
Defined.

Lemma preview_is_the_letter_witness :
  campaigns db0 !! 7 = Some sent_one
  /\ exists body,
       @preview_campaign live 7 db0 (at_time 9000) = (at_time 9000, Ok (Html body))
       /\ msg_parts (@letter live sent_one "preview@example.com" 9000)
          = [("html", body)].
Proof.
  assert (campaigns db0 !! 7 = Some sent_one) as Hget by (by vm_compute).
  split; [exact Hget|].
  exact (@preview_is_the_letter live 7 db0 (at_time 9000) sent_one Hget).
Defined.
End MoreInstances.
